(** * Perceval: the StackExchange backend and the git-blame parser

    A shallow embedding of [perceval/backends/stackexchange.py] (the paged
    REST client [StackExchangeClient] and the backend [StackExchange]) and
    of the blame parser exercised by [tests/test_gitblame.py].

    Python generators are embedded as resumable state machines: a state
    type holding the local variables alive at each [yield], and a step
    function run by [next].  Every effect the code has on the outside
    (HTTP requests, log records, cache-queue calls, values handed to the
    consumer) is appended, in program order, to the [trace] of a [world]. *)

From Stdlib Require Import ZArith Ascii String List Lia.
From stdpp Require Import base option list gmap strings.

Set Warnings "-notation-for-abbreviation".

Local Open Scope string_scope.
Local Open Scope list_scope.

(** ** Python values that appear in query strings *)

Inductive pyval :=
  | PyNone
  | PyInt (z : Z)
  | PyStr (s : string).

(** [datetime.datetime]: the fields [timetuple()] exposes. *)
Record datetime := Datetime {
  year : Z; month : Z; day : Z; hour : Z; minute : Z; second : Z
}.

(** Truth value of the [from_date] argument: [None] is falsy; a
    [datetime] object defines neither [__bool__] nor [__len__], hence is
    always truthy. *)
Definition truthy_date (from_date : option datetime) : bool :=
  match from_date with
  | Some _ => true
  | None => false
  end.

Definition QUESTIONS_FILTER : string :=
  "Bf*y*ByQD_upZqozgU6lXL_62USGOoV3)MFNgiHqHpmO_Y-jHR".
Definition MAX_QUESTIONS : Z := 100.
Definition STACKEXCHANGE_API_URL : string := "https://api.stackexchange.com".
Definition VERSION_API : string := "2.2".

(** ** HTTP responses *)

Section Backend.

(** A question as delivered by the API: a JSON object the backend never
    inspects. *)
Context {question : Type}.

(** [perceval.utils.DEFAULT_DATETIME] and [perceval.utils.urljoin] are
    imported from a module that is not part of the embedded sources, and
    [time.mktime] depends on the time zone of the host; the three are
    parameters of the development.  [mktime d] stands for
    [int(time.mktime(d.timetuple()))]. *)
Variable DEFAULT_DATETIME : datetime.
Variable mktime : datetime -> Z.
Variable urljoin : list string -> string.

(** The body [req.json()] of an answer: the API wrapper object, or any
    other JSON object (an error object, say), of which only the absence
    of the wrapper keys matters. *)
Record wrapper := Wrapper {
  items : list question;
  page_size : Z;
  total : Z;
  has_more : bool;
  quota_remaining : Z;
  quota_max : Z
}.

Inductive json_body :=
  | JWrapper (j : wrapper)
  | JError (error_id : Z) (error_name error_message : string).

Record response := Response {
  status_code : Z;
  body : json_body
}.

(** ** Exceptions, effects and the world *)

Inductive exn :=
  | HTTPError (r : response)
  | ConnectionError
  | KeyError (key : string)
  | CacheError (cause : string).

(** A log record keeps the format string (as the constructor) and its
    arguments. *)
Inductive log_record :=
  | LogLooking (site tagged : pyval) (from_date : option datetime)
  | LogRateLimit (remaining max : Z)
  | LogFetching (fetched all : Z)
  | LogNoQuestions.

Inductive event :=
  | EvLog (r : log_record)
  | EvGet (url : string) (params : gmap string pyval)
  | EvPurge
  | EvPush (q : question)
  | EvFlush
  | EvYield (q : question).

(** [net] is the script of the server: the answers it will give, in
    order (the mocked sequence of a test); [trace] is what happened so
    far, oldest event first. *)
Record world := World {
  net : list response;
  trace : list event
}.

Inductive result (A : Type) :=
  | Ok (a : A)
  | Exc (e : exn).
Arguments Ok {A} a.
Arguments Exc {A} e.

(** Computations that read and extend the world and may raise. *)
Definition M (A : Type) : Type := world -> result A * world.

Definition ret {A} (a : A) : M A := fun w => (Ok a, w).
Definition raise {A} (e : exn) : M A := fun w => (Exc e, w).
Definition bind {A B} (m : M A) (k : A -> M B) : M B :=
  fun w => match m w with
           | (Ok a, w') => k a w'
           | (Exc e, w') => (Exc e, w')
           end.
Definition emit (ev : event) : M unit :=
  fun w => (Ok tt, World (net w) (trace w ++ [ev])).

Notation "'let*' x ':=' m 'in' k" := (bind m (fun x => k))
  (at level 10, x name, m at level 100, k at level 200).
Notation "m ';;' k" := (bind m (fun _ => k))
  (at level 100, k at level 200, right associativity).

(** [requests.get(url, params=params)]: the request is sent and the next
    scripted answer comes back; an exhausted script is a connection that
    fails. *)
Definition requests_get (url : string) (params : gmap string pyval) : M response :=
  fun w =>
    let tr := trace w ++ [EvGet url params] in
    match net w with
    | r :: rs => (Ok r, World rs tr)
    | [] => (Exc ConnectionError, World [] tr)
    end.

(** [Response.raise_for_status()] of the requests library: raises
    [HTTPError], carrying the response, for a client error (4xx) or a
    server error (5xx), and for no other status. *)
Definition raise_for_status (req : response) : M unit :=
  if ((400 <=? status_code req) && (status_code req <? 600))%Z
  then raise (HTTPError req)
  else ret tt.

(** [req.json()] followed by a subscript with one of the wrapper keys. *)
Definition json (req : response) (key : string) : M wrapper :=
  match body req with
  | JWrapper j => ret j
  | JError _ _ _ => raise (KeyError key)
  end.

Definition logger_info (r : log_record) : M unit := emit (EvLog r).

(** ** Generators

    One step of a generator body runs from its entry (or from the [yield]
    it is suspended at) to the next [yield], to its end, or to an
    exception (in the monad). *)
Inductive gstep (A G : Type) :=
  | Yielded (a : A) (resume : G)
  | Stopped.
Arguments Yielded {A G} a resume.
Arguments Stopped {A G}.

(** What [next(g)] gives its caller. *)
Inductive outcome (A : Type) :=
  | Yield (a : A)
  | StopIteration
  | Raise (e : exn).
Arguments Yield {A} a.
Arguments StopIteration {A}.
Arguments Raise {A} e.

(** [next(g)] for a generator with step function [step]: a generator that
    returned or raised is finished, and stays so. *)
Definition next {G A} (step : G -> M (gstep A G)) (finished : G) (g : G)
    (w : world) : outcome A * G * world :=
  match step g w with
  | (Ok (Yielded a g'), w') => (Yield a, g', w')
  | (Ok Stopped, w') => (StopIteration, finished, w')
  | (Exc e, w') => (Raise e, finished, w')
  end.

(** [next(g)] called by the consumer of the backend: the question it
    receives is recorded. *)
Definition consumer_next {G} (step : G -> M (gstep question G)) (finished : G)
    (g : G) (w : world) : outcome question * G * world :=
  match next step finished g w with
  | (Yield q, g', w') => (Yield q, g', World (net w') (trace w' ++ [EvYield q]))
  | r => r
  end.

(** A consumer that calls [next] [k] times, whatever it gets. *)
Fixpoint pull {G A} (nxt : G -> world -> outcome A * G * world)
    (k : nat) (g : G) (w : world) : list (outcome A) * G * world :=
  match k with
  | O => ([], g, w)
  | S k' =>
      let '(o, g', w') := nxt g w in
      let '(os, g'', w'') := pull nxt k' g' w' in
      (o :: os, g'', w'')
  end.

(** ** StackExchangeClient *)

Record StackExchangeClient := Client {
  c_site : pyval;
  c_tagged : pyval;
  c_token : pyval;
  c_max_questions : pyval;
  c_version : string
}.

Definition StackExchangeClient_init (site tagged token max_questions : pyval)
  : StackExchangeClient :=
  Client site tagged token max_questions VERSION_API.

Section Client.

Variable self : StackExchangeClient.

Definition build_base_url (type : string) : string :=
  let base_api_url := STACKEXCHANGE_API_URL in
  let base_api_url := urljoin [base_api_url; c_version self; type] in
  base_api_url.

Definition build_payload (page : Z) (from_date : option datetime)
    (order sort : string) : gmap string pyval :=
  let payload : gmap string pyval :=
    <["filter" := PyStr QUESTIONS_FILTER]>
    (<["key" := c_token self]>
    (<["site" := c_site self]>
    (<["tagged" := c_tagged self]>
    (<["sort" := PyStr sort]>
    (<["order" := PyStr order]>
    (<["pagesize" := c_max_questions self]>
    (<["page" := PyInt page]> ∅))))))) in
  (* if from_date: *)
  match from_date with
  | Some d =>
      let timestamp := mktime d in
      <["min" := PyInt timestamp]> payload
  | None => payload
  end.

Definition log_status (quota_remaining quota_max page_size total : Z) : M unit :=
  logger_info (LogRateLimit quota_remaining quota_max);;
  if negb (total =? 0)%Z then
    if (total <=? page_size)%Z
    then logger_info (LogFetching total total)
    else logger_info (LogFetching page_size total)
  else logger_info LogNoQuestions.

(** The frame of [get_questions]: not started, suspended at its [yield]
    with the locals [page], [req] and [fetched] alive, or finished. *)
Inductive gq_state :=
  | GQ_Start (from_date : option datetime)
  | GQ_Suspended (from_date : option datetime) (page : Z) (req : response)
      (fetched : Z)
  | GQ_Finished.

(** [while questions: yield questions]: the loop test on a freshly
    assigned [questions].  An empty list is falsy and ends the generator;
    the page handed out is therefore never empty and is given as its
    first question and the others. *)
Definition while_questions (from_date : option datetime) (page : Z)
    (req : response) (fetched : Z) (questions : list question)
    : M (gstep (question * list question) gq_state) :=
  match questions with
  | q :: qs => ret (Yielded (q, qs) (GQ_Suspended from_date page req fetched))
  | [] => ret Stopped
  end.

Definition get_questions_step (g : gq_state)
    : M (gstep (question * list question) gq_state) :=
  match g with
  | GQ_Start from_date =>
      let page := 1%Z in
      let* req := requests_get (build_base_url "questions")
                    (build_payload page from_date "desc" "activity") in
      raise_for_status req;;
      let* j := json req "items" in
      let questions := items j in
      let fetched :=
        if (page_size j >=? total j)%Z then total j else page_size j in
      log_status (quota_remaining j) (quota_max j) fetched (total j);;
      while_questions from_date page req fetched questions
  | GQ_Suspended from_date page req fetched =>
      (* questions = None *)
      let* j := json req "has_more" in
      if has_more j then
        let page := (page + 1)%Z in
        let* req := requests_get (build_base_url "questions")
                      (build_payload page from_date "desc" "activity") in
        raise_for_status req;;
        let* j := json req "items" in
        let questions := items j in
        let fetched :=
          if (page_size j >=? total j)%Z
          then (fetched + total j)%Z
          else (fetched + page_size j)%Z in
        log_status (quota_remaining j) (quota_max j) fetched (total j);;
        while_questions from_date page req fetched questions
      else
        (* while None: the loop ends *)
        ret Stopped
  | GQ_Finished => ret Stopped
  end.

(** Calling the generator function runs nothing. *)
Definition get_questions (from_date : option datetime) : gq_state :=
  GQ_Start from_date.

End Client.

(** ** StackExchange *)

(** Modelled from the spec: [perceval.cache.Cache] is not part of the
    embedded sources; of a cache only what [retrieve()] produces matters
    here, the durable entries in their original append order. *)
Record Cache := MkCache {
  retrieve : list question
}.

Record StackExchange := MkStackExchange {
  origin : pyval;
  cache : option Cache;
  site : pyval;
  tagged : pyval;
  max_questions : pyval;
  client : StackExchangeClient
}.

(** [super().__init__(site, cache=cache)] stores the origin and the
    cache. *)
Definition StackExchange_init (site tagged token max_questions : pyval)
    (cache : option Cache) : StackExchange :=
  MkStackExchange site cache site tagged max_questions
    (StackExchangeClient_init site tagged token max_questions).

(** The cache-queue methods are inherited from [perceval.backend.Backend],
    which is not part of the embedded sources: a call is recorded as an
    event. *)
Definition purge_cache_queue : M unit := emit EvPurge.
Definition push_cache_queue (q : question) : M unit := emit (EvPush q).
Definition flush_cache_queue : M unit := emit EvFlush.

Section StackExchangeMethods.

Variable self : StackExchange.

(** The frame of [fetch]: not started; suspended at [yield question]
    with the questions of the current page still to visit and the
    generator [whole_page]; or finished.

    [fetch] and [fetch_from_cache] are the generator functions as the
    module defines them.  The decorator [metadata(get_update_time)] they
    go through comes from [perceval.backend], which is not part of the
    embedded sources: it hands each question on, wrapped into an item, in
    the same order, and is left out. *)
Inductive fetch_state :=
  | F_Start (from_date : option datetime)
  | F_Suspended (questions : list question) (whole_page : gq_state)
  | F_Finished.

(** The body of the inner [for], for one question. *)
Definition for_question (question0 : question) (questions : list question)
    (whole_page : gq_state) : M (gstep question fetch_state) :=
  push_cache_queue question0;;
  flush_cache_queue;;
  ret (Yielded question0 (F_Suspended questions whole_page)).

(** [for questions in whole_page]: advance the generator; its exception
    propagates, its end ends the loop. *)
Definition for_questions (whole_page : gq_state) : M (gstep question fetch_state) :=
  let* r := get_questions_step (client self) whole_page in
  match r with
  | Yielded (q, qs) whole_page' => for_question q qs whole_page'
  | Stopped => ret Stopped
  end.

Definition fetch_step (g : fetch_state) : M (gstep question fetch_state) :=
  match g with
  | F_Start from_date =>
      let from_date :=
        if negb (truthy_date from_date) then Some DEFAULT_DATETIME
        else from_date in
      logger_info (LogLooking (site self) (tagged self) from_date);;
      purge_cache_queue;;
      let whole_page := get_questions from_date in
      for_questions whole_page
  | F_Suspended (q :: qs) whole_page => for_question q qs whole_page
  | F_Suspended [] whole_page => for_questions whole_page
  | F_Finished => ret Stopped
  end.

(** [fetch(from_date)]: the generator object, not yet started. *)
Definition fetch (from_date : option datetime) : fetch_state := F_Start from_date.

Definition fetch_next : fetch_state -> world -> outcome question * fetch_state * world :=
  consumer_next fetch_step F_Finished.

(** The frame of [fetch_from_cache]. *)
Inductive cache_state :=
  | FC_Start
  | FC_Suspended (cache_items : list question)
  | FC_Finished.

Definition for_cache_items (cache_items : list question)
    : M (gstep question cache_state) :=
  match cache_items with
  | q :: rest => ret (Yielded q (FC_Suspended rest))
  | [] => ret Stopped
  end.

Definition fetch_from_cache_step (g : cache_state) : M (gstep question cache_state) :=
  match g with
  | FC_Start =>
      match cache self with
      | None => raise (CacheError "cache instance was not provided")
      | Some c =>
          let cache_items := retrieve c in
          for_cache_items cache_items
      end
  | FC_Suspended cache_items => for_cache_items cache_items
  | FC_Finished => ret Stopped
  end.

Definition fetch_from_cache : cache_state := FC_Start.

Definition fetch_from_cache_next
    : cache_state -> world -> outcome question * cache_state * world :=
  consumer_next fetch_from_cache_step FC_Finished.

End StackExchangeMethods.

End Backend.

Arguments Ok {question A} a.
Arguments Exc {question A} e.
Arguments Yielded {A G} a resume.
Arguments Stopped {A G}.
Arguments Yield {question A} a.
Arguments StopIteration {question A}.
Arguments Raise {question A} e.
Arguments build_payload : simpl never.
Arguments build_base_url : simpl never.

(** ** A concrete platform

    A host whose local time is UTC, the epoch as [DEFAULT_DATETIME], and
    [urljoin] joining with slashes; questions are numbered. *)

Definition days_from_civil (y m d : Z) : Z :=
  let y' := (if m <=? 2 then y - 1 else y)%Z in
  let era := (y' / 400)%Z in
  let yoe := (y' - era * 400)%Z in
  let mp := (if m <=? 2 then m + 9 else m - 3)%Z in
  let doy := ((153 * mp + 2) / 5 + d - 1)%Z in
  let doe := (yoe * 365 + yoe / 4 - yoe / 100 + doy)%Z in
  (era * 146097 + doe - 719468)%Z.

Definition utc_mktime (d : datetime) : Z :=
  (days_from_civil (year d) (month d) (day d) * 86400
   + hour d * 3600 + minute d * 60 + second d)%Z.

Definition epoch : datetime := Datetime 1970 1 1 0 0 0.

Definition slash_join (parts : list string) : string := String.concat "/" parts.

Definition demo_client : StackExchangeClient :=
  StackExchangeClient_init (PyStr "stackoverflow") (PyStr "python")
    (PyStr "aaa") (PyInt 2).

Definition demo : StackExchange (question := Z) :=
  StackExchange_init (PyStr "stackoverflow") (PyStr "python") (PyStr "aaa")
    (PyInt 2) None.

(** An answer for a query matching five questions in all, asked for in
    pages of two. *)
Definition wrapped (qs : list Z) (more : bool) : wrapper (question := Z) :=
  Wrapper qs 2 5 more 9990 10000.

Definition answer (status : Z) (qs : list Z) (more : bool)
    : response (question := Z) :=
  Response status (JWrapper (wrapped qs more)).

Definition three_pages : list (response (question := Z)) :=
  [answer 200 [1; 2] true; answer 200 [3; 4] true; answer 200 [5] false]%Z.

Definition demo_next := fetch_next epoch utc_mktime slash_join demo.
Definition demo_client_next :=
  next (question := Z) (get_questions_step utc_mktime slash_join demo_client)
    GQ_Finished.

(** ** Observations on a trace *)

Section Observations.

Context {question : Type}.

(** The query strings of the requests sent, in order. *)
Fixpoint requests (tr : list (event (question := question)))
    : list (gmap string pyval) :=
  match tr with
  | [] => []
  | EvGet _ params :: tr' => params :: requests tr'
  | _ :: tr' => requests tr'
  end.

(** The questions handed to the consumer, in order. *)
Fixpoint yielded (tr : list (event (question := question))) : list question :=
  match tr with
  | [] => []
  | EvYield q :: tr' => q :: yielded tr'
  | _ :: tr' => yielded tr'
  end.

(** The trace without its log records. *)
Fixpoint unlogged (tr : list (event (question := question)))
    : list (event (question := question)) :=
  match tr with
  | [] => []
  | EvLog _ :: tr' => unlogged tr'
  | ev :: tr' => ev :: unlogged tr'
  end.

(** The answer [r] passes [raise_for_status] and its body is the wrapper
    [j]. *)
Definition delivers (r : response (question := question)) (j : wrapper) : Prop :=
  ((400 <=? status_code r) && (status_code r <? 600))%Z = false
  /\ body r = JWrapper j.

End Observations.

Section ClientObservations.

Context {question : Type}.
Variable mktime : datetime -> Z.
Variable urljoin : list string -> string.

Local Notation event := (event (question := question)).
Local Notation wrapper := (wrapper (question := question)).
Local Notation gq_state := (gq_state (question := question)).
Local Notation fetch_state := (fetch_state (question := question)).
Local Notation world := (world (question := question)).

(** The bound [fetch] hands to the client. *)
Definition since (DEFAULT_DATETIME : datetime) (from_date : option datetime)
    : option datetime :=
  if negb (truthy_date from_date) then Some DEFAULT_DATETIME else from_date.

(** The request the client sends for a page. *)
Definition page_request (c : StackExchangeClient) (from_date : option datetime)
    (page : Z) : event :=
  EvGet (build_base_url urljoin c "questions")
    (build_payload mktime c page from_date "desc" "activity").

(** What a client step may add to the trace: requests for pages numbered
    from 1, and log records. *)
Definition client_event (c : StackExchangeClient) (from_date : option datetime)
    (ev : event) : Prop :=
  match ev with
  | EvGet url params =>
      exists page, (1 <= page)%Z /\ ev = page_request c from_date page
  | EvLog _ => True
  | _ => False
  end.

(** The generator keeps the bound it was called with, and its page
    counter is positive. *)
Definition client_inv (from_date : option datetime) (g : gq_state) : Prop :=
  match g with
  | GQ_Start fd => fd = from_date
  | GQ_Suspended fd page _ _ => fd = from_date /\ (1 <= page)%Z
  | GQ_Finished => True
  end.

(** What [fetch] adds to the trace once it has purged the queue: client
    events, and for each question a push, a flush and the hand-over. *)
Inductive fetch_tail (c : StackExchangeClient) (from_date : option datetime)
    : list event -> Prop :=
  | tail_nil : fetch_tail c from_date []
  | tail_client ev d :
      client_event c from_date ev -> fetch_tail c from_date d ->
      fetch_tail c from_date (ev :: d)
  | tail_question q d :
      fetch_tail c from_date d ->
      fetch_tail c from_date (EvPush q :: EvFlush :: EvYield q :: d).

(** A started [fetch] whose client was called with [from_date]. *)
Definition resumed (from_date : option datetime) (g : fetch_state) : Prop :=
  match g with
  | F_Start _ => False
  | F_Suspended _ whole_page => client_inv from_date whole_page
  | F_Finished => True
  end.

(** The values among the outcomes of successive [next] calls. *)
Fixpoint values {A} (os : list (outcome (question := question) A)) : list A :=
  match os with
  | [] => []
  | Yield a :: os' => a :: values os'
  | _ :: os' => values os'
  end.

(** The page the client asks for when it is next resumed, if any: page 1
    at the start; after a page, the following one when that answer says
    [has_more]. *)
Definition next_page (g : gq_state) : option (option datetime * Z) :=
  match g with
  | GQ_Start from_date => Some (from_date, 1%Z)
  | GQ_Suspended from_date page req _ =>
      match body req with
      | JWrapper j => if has_more j then Some (from_date, (page + 1)%Z) else None
      | JError _ _ _ => None
      end
  | GQ_Finished => None
  end.

(** The state of the client up to its [fetched] counter. *)
Definition forget_fetched (g : gq_state) : gq_state :=
  match g with
  | GQ_Suspended from_date page req _ => GQ_Suspended from_date page req 0
  | _ => g
  end.

(** What one answer adds to [fetched]. *)
Definition counted (j : wrapper) : Z :=
  if (page_size j >=? total j)%Z then total j else page_size j.

(** The two log records of [__log_status]. *)
Definition status_log (quota_remaining quota_max page_size total : Z) : list event :=
  [EvLog (LogRateLimit quota_remaining quota_max);
   EvLog (if negb (total =? 0)%Z then
            if (total <=? page_size)%Z then LogFetching total total
            else LogFetching page_size total
          else LogNoQuestions)].

(** The log records of the page [j], written when [fetched] has reached
    the value given. *)
Definition page_log (j : wrapper) (fetched : Z) : list event :=
  status_log (quota_remaining j) (quota_max j) fetched (total j).

(** [fetched] as the specification words it: every page adds
    [min(page_size, remaining_total)], where [remaining_total] is the
    total not yet counted. *)
Fixpoint spec_fetched (counted_so_far : Z) (js : list wrapper) : Z :=
  match js with
  | [] => counted_so_far
  | j :: js' =>
      spec_fetched
        (counted_so_far + Z.min (page_size j) (total j - counted_so_far)) js'
  end.

(** [fetched] as the code counts. *)
Definition code_fetched (js : list wrapper) : Z :=
  foldr (fun j acc => (Z.min (page_size j) (total j) + acc)%Z) 0%Z js.

(** The two places where [get_questions] asks for a page, as one
    equation: the request for [page] is sent when [fetched] questions
    were counted. *)
Definition page_round (c : StackExchangeClient) (from_date : option datetime)
    (page fetched : Z) (w : world)
    : result (gstep (question * list question) gq_state) * world :=
  let tr := trace w ++ [page_request c from_date page] in
  match net w with
  | [] => (Exc ConnectionError, World [] tr)
  | r :: rs =>
      if ((400 <=? status_code r) && (status_code r <? 600))%Z
      then (Exc (HTTPError r), World rs tr)
      else
        match body r with
        | JError _ _ _ => (Exc (KeyError "items"), World rs tr)
        | JWrapper j =>
            let fetched' := (fetched + counted j)%Z in
            (match items j with
             | q :: qs => Ok (Yielded (q, qs) (GQ_Suspended from_date page r fetched'))
             | [] => Ok Stopped
             end,
             World rs (tr ++ page_log j fetched'))
        end
  end.

(** The value of [fetched] in a frame of the client. *)
Definition fetched_of (g : gq_state) : Z :=
  match g with
  | GQ_Suspended _ _ _ fetched => fetched
  | _ => 0%Z
  end.

(** What [fetch] does with the questions of a page, one after the other. *)
Definition handed (qs : list question) : list event :=
  concat (map (fun q => [EvPush q; EvFlush; EvYield q]) qs).

(** The page numbers [page], [page + 1], ..., [n] of them. *)
Fixpoint pages_from (page : Z) (n : nat) : list Z :=
  match n with
  | O => []
  | S n' => page :: pages_from (page + 1) n'
  end.

(** The [page] parameter of each request, in the order of the requests. *)
Definition pages_asked (ps : list (gmap string pyval)) : list (option pyval) :=
  map (fun params => params !! "page") ps.

(** Two steps of the client that took the same course: the same page
    handed out, the same end or the same exception; frames equal up to
    [fetched]; the same script left; the same trace up to log records. *)
Definition same_course
    (x y : @result question (gstep (question * list question) gq_state) * world)
    : Prop :=
  match x.1, y.1 with
  | Ok (Yielded a g), Ok (Yielded a' g') =>
      a = a' /\ forget_fetched g = forget_fetched g'
  | Ok Stopped, Ok Stopped => True
  | Exc e, Exc e' => e = e'
  | _, _ => False
  end
  /\ net x.2 = net y.2
  /\ unlogged (trace x.2) = unlogged (trace y.2).

(** The parameters of a request of a client called with [from_date]. *)
Definition request_carries (c : StackExchangeClient)
    (from_date : option datetime) (params : gmap string pyval) : Prop :=
  (exists page, (1 <= page)%Z /\ params !! "page" = Some (PyInt page))
  /\ params !! "pagesize" = Some (c_max_questions c)
  /\ params !! "order" = Some (PyStr "desc")
  /\ params !! "sort" = Some (PyStr "activity")
  /\ params !! "tagged" = Some (c_tagged c)
  /\ params !! "site" = Some (c_site c)
  /\ params !! "filter" = Some (PyStr QUESTIONS_FILTER)
  /\ params !! "key" = Some (c_token c)
  /\ params !! "min" = (fun d => PyInt (mktime d)) <$> from_date.

End ClientObservations.

Arguments values {question A} os.

(** ** StackExchangeCommand *)

Section Command.

Context {question : Type}.
Variable DEFAULT_DATETIME : datetime.
Variable mktime : datetime -> Z.
Variable urljoin : list string -> string.

(** [json.dumps(question, indent=4, sort_keys=True)], [str(e)] for an
    exception and [str(e.response.json())] are functions of the Python
    library: parameters. *)
Variable json_dumps : question -> string.
Variable str_exn : exn (question := question) -> string.
Variable str_json : json_body (question := question) -> string.

Local Notation world := (world (question := question)).
Local Notation response := (response (question := question)).
Local Notation fetch_state := (fetch_state (question := question)).
Local Notation cache_state := (cache_state (question := question)).

(** The command once its arguments are parsed: the backend it built, and
    the two arguments [run] reads, [parsed_args.fetch_cache] and
    [from_date]. *)
Record StackExchangeCommand := MkCommand {
  cmd_backend : StackExchange (question := question);
  cmd_fetch_cache : bool;
  cmd_from_date : option datetime
}.

(** What [run] raises. *)
Inductive run_error :=
  | RaisedHTTPError (message : string)
  | RuntimeError (message : string).

(** The world of the command: the world of the backend, what was written
    to [outfile] (writing does not fail here), and the number of calls of
    [cache.recover()]. *)
Record shell := Shell {
  sh_world : world;
  outfile : list string;
  recovered : nat
}.

Definition newline : string := String "010"%char EmptyString.

(** [questions], the generator [run] iterates: that of [fetch] or that
    of [fetch_from_cache]. *)
Definition questions_next (self : StackExchangeCommand)
    (g : fetch_state + cache_state) (w : world)
    : outcome question * (fetch_state + cache_state) * world :=
  match g with
  | inl f =>
      let '(o, f', w') :=
        fetch_next DEFAULT_DATETIME mktime urljoin (cmd_backend self) f w in
      (o, inl f', w')
  | inr c =>
      let '(o, c', w') := fetch_from_cache_next (cmd_backend self) c w in
      (o, inr c', w')
  end.

(** [for question in questions]: each question is dumped and written,
    followed by a newline; the loop ends with the generator ([None]) or
    with the exception it raises.  [fuel] bounds the number of [next]
    calls. *)
Fixpoint for_question_in (fuel : nat) (self : StackExchangeCommand)
    (questions : fetch_state + cache_state) (sh : shell)
    : option (option (exn (question := question)) * shell) :=
  match fuel with
  | O => None
  | S fuel' =>
      let '(o, questions', w') := questions_next self questions (sh_world sh) in
      match o with
      | Yield q =>
          let obj := json_dumps q in
          for_question_in fuel' self questions'
            (Shell w' (outfile sh ++ [obj; newline]) (recovered sh))
      | StopIteration => Some (None, Shell w' (outfile sh) (recovered sh))
      | Raise e => Some (Some e, Shell w' (outfile sh) (recovered sh))
      end
  end.

(** The three [except] clauses of [run], in their order:
    [requests.exceptions.HTTPError]; [IOError], of which the connection
    error of requests is a subclass; any other [Exception]. *)
Definition handle (self : StackExchangeCommand)
    (e : exn (question := question)) (sh : shell) : run_error * shell :=
  match e with
  | HTTPError r => (RaisedHTTPError (str_json (body r)), sh)
  | ConnectionError => (RuntimeError (str_exn e), sh)
  | _ =>
      let sh' :=
        match cache (cmd_backend self) with
        | Some _ => Shell (sh_world sh) (outfile sh) (S (recovered sh))
        | None => sh
        end in
      (RuntimeError (str_exn e), sh')
  end.

Definition run (fuel : nat) (self : StackExchangeCommand) (sh : shell)
    : option (option run_error * shell) :=
  let questions :=
    if cmd_fetch_cache self then inr fetch_from_cache
    else inl (fetch (cmd_from_date self)) in
  match for_question_in fuel self questions sh with
  | None => None
  | Some (None, sh') => Some (None, sh')
  | Some (Some e, sh') =>
      let '(err, sh'') := handle self e sh' in
      Some (Some err, sh'')
  end.

(** *** Accounting *)

(** The questions an answer delivers to the client: those of its wrapper
    when its status passes, none otherwise. *)
Definition page_items (r : response) : list question :=
  if ((400 <=? status_code r) && (status_code r <? 600))%Z then []
  else match body r with
       | JWrapper j => items j
       | JError _ _ _ => []
       end.

(** The questions of the current page [fetch] has still to hand over. *)
Definition pending (g : fetch_state) : list question :=
  match g with
  | F_Suspended questions _ => questions
  | _ => []
  end.

(** The page number of the last request of a [fetch], 0 before any. *)
Definition asked (g : fetch_state) : Z :=
  match g with
  | F_Suspended _ (GQ_Suspended _ page _ _) => page
  | _ => 0%Z
  end.

(** What the command writes for the questions [qs]. *)
Definition dumped (qs : list question) : list string :=
  concat (map (fun q => [json_dumps q; newline]) qs).

(** A log record of progress that shows no more questions fetched than
    there are. *)
Definition progress_bounded (ev : event (question := question)) : Prop :=
  match ev with
  | EvLog (LogFetching fetched all) => (fetched <= all)%Z
  | _ => True
  end.

(** A bound on the questions the generator of [run] can still give. *)
Definition remaining (self : StackExchangeCommand)
    (g : fetch_state + cache_state) (w : world) : nat :=
  match g with
  | inl f => length (pending f) + length (concat (map page_items (net w)))
  | inr FC_Start =>
      match cache (cmd_backend self) with
      | Some c => length (retrieve c)
      | None => 0
      end
  | inr (FC_Suspended cache_items) => length cache_items
  | inr FC_Finished => 0
  end.

(** A bound on the [next] calls the loop of [run] needs. *)
Definition rounds (self : StackExchangeCommand) (w : world) : nat :=
  if cmd_fetch_cache self then
    match cache (cmd_backend self) with
    | Some c => length (retrieve c)
    | None => 0
    end
  else length (concat (map page_items (net w))).

End Command.

(** *** A concrete command *)

Definition demo_dumps (q : Z) : string :=
  String (ascii_of_N (48 + Z.to_N q)) EmptyString.

Definition demo_str_exn (e : exn (question := Z)) : string :=
  match e with
  | HTTPError _ => "HTTPError"
  | ConnectionError => "ConnectionError"
  | KeyError key => key
  | CacheError cause => cause
  end.

Definition demo_str_json (b : json_body (question := Z)) : string :=
  match b with
  | JWrapper _ => "{items}"
  | JError _ name _ => name
  end.

Definition demo_command (fetch_cache : bool) (store : option (Cache (question := Z)))
    : StackExchangeCommand (question := Z) :=
  MkCommand
    (StackExchange_init (PyStr "stackoverflow") (PyStr "python") (PyStr "aaa")
       (PyInt 2) store)
    fetch_cache None.

Definition demo_run :=
  run epoch utc_mktime slash_join demo_dumps demo_str_exn demo_str_json.

Definition two_pages : list (response (question := Z)) :=
  [answer 200 [1; 2] true; answer 200 [3; 4] true]%Z.

Definition two_wrappers : list (wrapper (question := Z)) :=
  [wrapped [1; 2] true; wrapped [3; 4] true]%Z.

(** An answer with a passing status and an error object as body. *)
Definition no_items : response (question := Z) :=
  Response 200 (JError 400 "bad_parameter" "site is required").

(** ** The git-blame backend

    [perceval/backends/gitblame.py] is not part of the embedded sources;
    its test-suite [tests/test_gitblame.py] is. *)

Module GitBlame.

(** [s.split(sep)] *)
Fixpoint split (sep : ascii) (s : string) : list string :=
  match s with
  | EmptyString => [EmptyString]
  | String c s' =>
      if Ascii.eqb c sep then EmptyString :: split sep s'
      else match split sep s' with
           | w :: ws => String c w :: ws
           | [] => [String c EmptyString]
           end
  end.

(** [s.split(sep, 1)] when [sep] occurs in [s]: what precedes the first
    separator and what follows it. *)
Fixpoint split_once (sep : ascii) (s : string) : option (string * string) :=
  match s with
  | EmptyString => None
  | String c s' =>
      if Ascii.eqb c sep then Some (EmptyString, s')
      else match split_once sep s' with
           | Some (k, v) => Some (String c k, v)
           | None => None
           end
  end.

Definition LF : ascii := "010"%char.

(** The lines of a text, without their line feeds. *)
Fixpoint splitlines (s : string) : list string :=
  match s with
  | EmptyString => []
  | String c s' =>
      if Ascii.eqb c LF then EmptyString :: splitlines s'
      else match splitlines s' with
           | l :: ls => String c l :: ls
           | [] => [String c EmptyString]
           end
  end.

Inductive parsed :=
  | Snippets (l : list (gmap string string))
  | ParseError.

Definition add_snippet (r : gmap string string) (p : parsed) : parsed :=
  match p with
  | Snippets l => Snippets (r :: l)
  | ParseError => ParseError
  end.

(** Where the parser is: before a header line, or inside a group whose
    record is being filled; [suppress] tells that the identity of the
    group was seen before. *)
Inductive position :=
  | AtHeader
  | InGroup (suppress : bool) (snippet : gmap string string).

Definition header_snippet (hash prev_line this_line lines : string)
    : gmap string string :=
  <["lines" := lines]>
  (<["this_line" := this_line]>
  (<["prev_line" := prev_line]>
  (<["hash" := hash]> ∅))).

(** Modelled from the spec: [BlameOutput.analyze] (gitblame.py is
    missing).  A single sequential pass over the lines.  A group begins
    with a header line of four tokens, [{commitHash} {prevLineNo}
    {thisLineNo} {lineCount}]; any other token count is a [ParseError].
    The lines that follow are [key value] lines, up to and including the
    [filename {path}] line that closes the group.  The identities
    (hash, prevLine, thisLine) met so far are memoized in an explicit set
    scoped to the call; for a group whose identity was seen before no
    metadata is emitted: its record has hash, prev_line, this_line, lines
    and filename only.  Groups come out in input order.  Malformed output
    is never skipped silently: a line without a value inside a group, or
    a text that ends inside a group, is a [ParseError] too. *)
Fixpoint analyze_lines (seen : gset (string * string * string))
    (pos : position) (lines : list string) : parsed :=
  match lines with
  | [] =>
      match pos with
      | AtHeader => Snippets []
      | InGroup _ _ => ParseError
      end
  | line :: rest =>
      match pos with
      | AtHeader =>
          match split " " line with
          | [hash; prev_line; this_line; count] =>
              let identity := (hash, prev_line, this_line) in
              analyze_lines ({[identity]} ∪ seen)
                (InGroup (bool_decide (identity ∈ seen))
                   (header_snippet hash prev_line this_line count))
                rest
          | _ => ParseError
          end
      | InGroup suppress snippet =>
          match split_once " " line with
          | Some (key, value) =>
              if String.eqb key "filename" then
                add_snippet (<["filename" := value]> snippet)
                  (analyze_lines seen AtHeader rest)
              else if suppress then
                analyze_lines seen (InGroup suppress snippet) rest
              else
                analyze_lines seen (InGroup suppress (<[key := value]> snippet)) rest
          | None => ParseError
          end
      end
  end.

(** [BlameOutput(text).analyze()]: each call starts with an empty set. *)
Definition analyze (text : string) : parsed :=
  analyze_lines ∅ AtHeader (splitlines text).

(** Modelled from the spec: the constructor of the [GitBlame] backend
    (gitblame.py is missing), as [TestGitBlameBackend.test_initialization]
    fixes it: when origin is empty or None it is set to the value in
    uri. *)
Record GitBlame := MkGitBlame {
  uri : string;
  gitpath : string;
  origin : string
}.

Definition GitBlame_init (uri gitpath : string) (origin : option string)
    : GitBlame :=
  let origin :=
    match origin with
    | None => uri
    | Some EmptyString => uri
    | Some o => o
    end in
  MkGitBlame uri gitpath origin.

(** *** Blame output, group by group *)

(** A group of the output: the four tokens of its header line, the
    [key value] lines it lists before its [filename] line, and the path
    of that line. *)
Record group := MkGroup {
  g_hash : string;
  g_prev_line : string;
  g_this_line : string;
  g_count : string;
  g_metadata : list (string * string);
  g_filename : string
}.

Definition identity (g : group) : string * string * string :=
  (g_hash g, g_prev_line g, g_this_line g).

Definition header_line (g : group) : string :=
  g_hash g +:+ " " +:+ g_prev_line g +:+ " " +:+ g_this_line g
    +:+ " " +:+ g_count g.

Definition kv_line (kv : string * string) : string := kv.1 +:+ " " +:+ kv.2.

Definition group_lines (g : group) : list string :=
  header_line g :: map kv_line (g_metadata g) ++ ["filename " +:+ g_filename g].

Definition blame_lines (gs : list group) : list string :=
  concat (map group_lines gs).

(** The text whose lines are [ls], each ended by a line feed. *)
Definition unlines (ls : list string) : string :=
  foldr (fun l text => l +:+ String LF text) EmptyString ls.

Fixpoint free_of (c : ascii) (s : string) : bool :=
  match s with
  | EmptyString => true
  | String x s' => negb (Ascii.eqb x c) && free_of c s'
  end.

(** A metadata line: the key holds no space and is not [filename];
    neither key nor value holds a line feed. *)
Definition well_formed_line (kv : string * string) : Prop :=
  free_of " " kv.1 = true /\ kv.1 <> "filename"
  /\ free_of LF kv.1 = true /\ free_of LF kv.2 = true.

(** The tokens of the header hold neither space nor line feed, the
    metadata lines are well formed, the path holds no line feed. *)
Definition well_formed (g : group) : Prop :=
  Forall (fun t => free_of " " t = true /\ free_of LF t = true)
    [g_hash g; g_prev_line g; g_this_line g; g_count g]
  /\ Forall well_formed_line (g_metadata g)
  /\ free_of LF (g_filename g) = true.

Definition with_metadata (snippet : gmap string string)
    (metadata : list (string * string)) : gmap string string :=
  foldl (fun m kv => <[kv.1 := kv.2]> m) snippet metadata.

(** The record of a group; [suppress] leaves the metadata out. *)
Definition record_of (suppress : bool) (g : group) : gmap string string :=
  let header :=
    header_snippet (g_hash g) (g_prev_line g) (g_this_line g) (g_count g) in
  <["filename" := g_filename g]>
    (if suppress then header else with_metadata header (g_metadata g)).

(** The records of the groups [gs] when the identities in [seen] were
    met before them. *)
Fixpoint records (seen : gset (string * string * string)) (gs : list group)
    : list (gmap string string) :=
  match gs with
  | [] => []
  | g :: gs' =>
      record_of (bool_decide (identity g ∈ seen)) g
        :: records ({[identity g]} ∪ seen) gs'
  end.

Definition five_fields : gset string :=
  {[ "hash"; "prev_line"; "this_line"; "lines"; "filename" ]}.

Definition metadata_fields : list string :=
  ["author"; "author-mail"; "author-time"; "author-tz";
   "committer"; "committer-mail"; "committer-time"; "committer-tz";
   "summary"].

Definition identity_of (r : gmap string string)
    : option string * option string * option string :=
  (r !! "hash", r !! "prev_line", r !! "this_line").

(** The specification in its own words: a record whose identity occurred
    earlier in the result has the five fields only, and a first
    occurrence carries the full metadata. *)
Definition abbreviated_by_identity (rs : list (gmap string string)) : Prop :=
  forall i r, rs !! i = Some r ->
    if bool_decide (identity_of r ∈ identity_of <$> take i rs)
    then dom r = five_fields
    else Forall (fun k => is_Some (r !! k)) metadata_fields.

(** *** The data of [TestBlameOutput] *)

Definition text : string :=
"d7d30291c9ec0ab4af99220ef52e3e88f51e2c31 29 29 1
author Santiago Dueñas
author-mail <sduenas@bitergia.com>
author-time 1470075075
author-tz +0200
committer Santiago Dueñas
committer-mail <sduenas@bitergia.com>
committer-time 1470075075
committer-tz +0200
summary [perceval] Add Redmine backend
previous a12760b159f813863bb4f7b6c383cad72f824160 README.md
filename README.md
d7d30291c9ec0ab4af99220ef52e3e88f51e2c31 174 174 6
filename README.md
d8e0f9c118f3026251ba0369424b7a3918a66231 27 27 1
author Santiago Dueñas
author-mail <sduenas@bitergia.com>
author-time 1469722351
author-tz +0200
committer Santiago Dueñas
committer-mail <sduenas@bitergia.com>
committer-time 1469725990
committer-tz +0200
summary [perceval] Add Phabricator backend
previous d163a11551f52c13f38824a2a4a2e23409e60d96 README.md
filename README.md
d8e0f9c118f3026251ba0369424b7a3918a66231 163 164 5
filename README.md
ba1e441986b32f505e1dbaa1e8e16758c073fc07 24 24 1
author Alvaro del Castillo
author-mail <acs@bitergia.com>
author-time 1467802564
author-tz +0200
committer Alvaro del Castillo
committer-mail <acs@bitergia.com>
committer-time 1468965921
committer-tz +0200
summary [perceval] Add Kitsune backend
previous 6c797b8499a70f3af520bcd0863127dc0f29fb94 README.md
filename README.md
ba1e441986b32f505e1dbaa1e8e16758c073fc07 147 149 5
filename README.md
".

(** [b''.join(lines[0:12])] *)
Definition text_single : string :=
  unlines (take 12 (splitlines text)).

Definition snippet (fields : list (string * string)) : gmap string string :=
  list_to_map fields.

Definition analyzed : list (gmap string string) :=
  [ snippet
      [("hash", "d7d30291c9ec0ab4af99220ef52e3e88f51e2c31");
       ("prev_line", "29"); ("this_line", "29"); ("lines", "1");
       ("committer", "Santiago Dueñas");
       ("committer-mail", "<sduenas@bitergia.com>");
       ("committer-time", "1470075075"); ("committer-tz", "+0200");
       ("author", "Santiago Dueñas");
       ("author-mail", "<sduenas@bitergia.com>");
       ("author-time", "1470075075"); ("author-tz", "+0200");
       ("summary", "[perceval] Add Redmine backend");
       ("previous", "a12760b159f813863bb4f7b6c383cad72f824160 README.md");
       ("filename", "README.md")];
    snippet
      [("hash", "d7d30291c9ec0ab4af99220ef52e3e88f51e2c31");
       ("lines", "6"); ("filename", "README.md");
       ("prev_line", "174"); ("this_line", "174")];
    snippet
      [("lines", "1"); ("prev_line", "27"); ("this_line", "27");
       ("committer-time", "1469725990");
       ("author-mail", "<sduenas@bitergia.com>");
       ("committer-mail", "<sduenas@bitergia.com>");
       ("author-time", "1469722351");
       ("author", "Santiago Dueñas"); ("author-tz", "+0200");
       ("summary", "[perceval] Add Phabricator backend");
       ("hash", "d8e0f9c118f3026251ba0369424b7a3918a66231");
       ("previous", "d163a11551f52c13f38824a2a4a2e23409e60d96 README.md");
       ("committer", "Santiago Dueñas");
       ("filename", "README.md"); ("committer-tz", "+0200")];
    snippet
      [("hash", "d8e0f9c118f3026251ba0369424b7a3918a66231");
       ("lines", "5"); ("filename", "README.md");
       ("prev_line", "163"); ("this_line", "164")];
    snippet
      [("lines", "1"); ("prev_line", "24"); ("this_line", "24");
       ("committer-time", "1468965921");
       ("author-mail", "<acs@bitergia.com>");
       ("committer-mail", "<acs@bitergia.com>");
       ("author-time", "1467802564");
       ("author", "Alvaro del Castillo"); ("author-tz", "+0200");
       ("summary", "[perceval] Add Kitsune backend");
       ("hash", "ba1e441986b32f505e1dbaa1e8e16758c073fc07");
       ("previous", "6c797b8499a70f3af520bcd0863127dc0f29fb94 README.md");
       ("committer", "Alvaro del Castillo");
       ("filename", "README.md"); ("committer-tz", "+0200")];
    snippet
      [("hash", "ba1e441986b32f505e1dbaa1e8e16758c073fc07");
       ("lines", "5"); ("filename", "README.md");
       ("prev_line", "147"); ("this_line", "149")] ].

Definition analyzed_single : list (gmap string string) := take 1 analyzed.

(** A block of one line blamed on the first commit of the test data. *)
Definition block (line : string) (metadata : list (string * string)) : group :=
  MkGroup "d7d30291c9ec0ab4af99220ef52e3e88f51e2c31" line line "1" metadata
    "README.md".

End GitBlame.


(** * Properties *)

Section Properties.

Context {question : Type}.
Variable DEFAULT_DATETIME : datetime.
Variable mktime : datetime -> Z.
Variable urljoin : list string -> string.


Local Notation event := (event (question := question)).
Local Notation response := (response (question := question)).
Local Notation wrapper := (wrapper (question := question)).
Local Notation world := (world (question := question)).
Local Notation gq_state := (gq_state (question := question)).
Local Notation fetch_state := (fetch_state (question := question)).
Local Notation StackExchange := (StackExchange (question := question)).

Local Notation client_step c := (get_questions_step mktime urljoin c).
Local Notation client_next c := (next (client_step c) GQ_Finished).
Local Notation payload c := (build_payload mktime c).
Local Notation page_request := (@page_request question mktime urljoin).
Local Notation client_event := (@client_event question mktime urljoin).
Local Notation backend_step b := (fetch_step DEFAULT_DATETIME mktime urljoin b).
Local Notation backend_next b := (fetch_next DEFAULT_DATETIME mktime urljoin b).

(** *** Traces *)

Lemma requests_app (a b : list event) : requests (a ++ b) = requests a ++ requests b.
Proof.
  induction a as [|ev a IH]; [reflexivity|].
  destruct ev; simpl; rewrite ?IH; reflexivity.
Qed.

Lemma yielded_app (a b : list event) : yielded (a ++ b) = yielded a ++ yielded b.
Proof.
  induction a as [|ev a IH]; [reflexivity|].
  destruct ev; simpl; rewrite ?IH; reflexivity.
Qed.

Lemma unlogged_app (a b : list event) : unlogged (a ++ b) = unlogged a ++ unlogged b.
Proof.
  induction a as [|ev a IH]; [reflexivity|].
  destruct ev; simpl; rewrite ?IH; reflexivity.
Qed.

(** *** One step of the client *)

Local Notation page_round := (@page_round question mktime urljoin).
Local Notation since := (since DEFAULT_DATETIME).

Ltac run_client :=
  unfold get_questions_step, while_questions, log_status, logger_info,
    json, raise_for_status, requests_get, emit, bind, ret, raise;
  simpl.

Lemma client_step_start c from_date (w : world) :
  client_step c (GQ_Start from_date) w = page_round c from_date 1 0 w.
Proof.
  unfold page_round, page_request, page_log, status_log, counted.
  run_client.
  destruct w as [[|r rs] tr]; simpl; [reflexivity|].
  destruct (_ && _); simpl; [reflexivity|].
  destruct (body r) as [j|]; simpl; [|reflexivity].
  destruct (page_size j >=? total j)%Z, (total j =? 0)%Z; simpl;
    rewrite ?Z.add_0_l;
    repeat match goal with |- context [(?a <=? ?b)%Z] => destruct (a <=? b)%Z end;
    simpl; rewrite <- ?app_assoc; destruct (items j); reflexivity.
Qed.

Lemma client_step_resume c from_date page req fetched (w : world) :
  client_step c (GQ_Suspended from_date page req fetched) w =
  match body req with
  | JWrapper j0 =>
      if has_more j0 then page_round c from_date (page + 1) fetched w
      else (Ok Stopped, w)
  | JError _ _ _ => (Exc (KeyError "has_more"), w)
  end.
Proof.
  unfold page_round, page_request, page_log, status_log, counted.
  run_client.
  destruct (body req) as [j0|]; simpl; [|reflexivity].
  destruct (has_more j0); [|reflexivity].
  destruct w as [[|r rs] tr]; simpl; [reflexivity|].
  destruct (_ && _); simpl; [reflexivity|].
  destruct (body r) as [j|]; simpl; [|reflexivity].
  destruct (page_size j >=? total j)%Z, (total j =? 0)%Z; simpl;
    rewrite ?Z.add_0_l;
    repeat match goal with |- context [(?a <=? ?b)%Z] => destruct (a <=? b)%Z end;
    simpl; rewrite <- ?app_assoc; destruct (items j); reflexivity.
Qed.

Lemma client_step_finished c (w : world) :
  client_step c GQ_Finished w = (Ok Stopped, w).
Proof. reflexivity. Qed.

Lemma page_round_shape c from_date page fetched (w : world) :
  (1 <= page)%Z ->
  exists d,
    trace (page_round c from_date page fetched w).2 = trace w ++ d
    /\ Forall (client_event c from_date) d
    /\ (forall a g', (page_round c from_date page fetched w).1 = Ok (Yielded a g') ->
          client_inv from_date g').
Proof.
  intros Hpage.
  assert (Hreq : client_event c from_date (page_request c from_date page))
    by (exists page; split; [lia|reflexivity]).
  unfold page_round.
  destruct (net w) as [|r rs]; simpl.
  { eexists; split; [reflexivity|]. split; [repeat constructor; exact Hreq|]. discriminate. }
  destruct (_ && _); simpl.
  { eexists; split; [reflexivity|]. split; [repeat constructor; exact Hreq|]. discriminate. }
  destruct (body r) as [j|]; simpl.
  - rewrite <- app_assoc. eexists; split; [reflexivity|].
    split; [repeat constructor; exact Hreq|].
    intros a g' Heq. destruct (items j); simplify_eq/=. split; [reflexivity|lia].
  - eexists; split; [reflexivity|]. split; [repeat constructor; exact Hreq|]. discriminate.
Qed.

Lemma client_step_shape c from_date (g : gq_state) (w : world) :
  client_inv from_date g ->
  exists d,
    trace (client_step c g w).2 = trace w ++ d
    /\ Forall (client_event c from_date) d
    /\ (forall a g', (client_step c g w).1 = Ok (Yielded a g') ->
          client_inv from_date g').
Proof.
  intros Hinv.
  destruct g as [fd|fd page req fetched|]; simpl in Hinv.
  - subst fd. rewrite client_step_start. apply page_round_shape. lia.
  - destruct Hinv as [-> Hpage]. rewrite client_step_resume.
    destruct (body req) as [j0|].
    + destruct (has_more j0).
      * apply page_round_shape. lia.
      * exists []. rewrite app_nil_r. repeat split; [constructor|discriminate].
    + exists []. rewrite app_nil_r. repeat split; [constructor|discriminate].
  - exists []. rewrite app_nil_r. repeat split; [constructor|discriminate].
Qed.

(** *** One step of the backend *)

Lemma backend_next_question b q qs (whole_page : gq_state) (w : world) :
  backend_next b (F_Suspended (q :: qs) whole_page) w =
  (Yield q, F_Suspended qs whole_page,
   World (net w) (trace w ++ [EvPush q; EvFlush; EvYield q])).
Proof.
  unfold fetch_next, consumer_next, next, fetch_step, for_question,
    push_cache_queue, flush_cache_queue, emit, bind, ret; simpl.
  rewrite <- !app_assoc. reflexivity.
Qed.

Lemma backend_next_page b (whole_page : gq_state) (w : world) :
  backend_next b (F_Suspended [] whole_page) w =
  match client_step (client b) whole_page w with
  | (Ok (Yielded (q, qs) whole_page'), w') =>
      (Yield q, F_Suspended qs whole_page',
       World (net w') (trace w' ++ [EvPush q; EvFlush; EvYield q]))
  | (Ok Stopped, w') => (StopIteration, F_Finished, w')
  | (Exc e, w') => (Raise e, F_Finished, w')
  end.
Proof.
  unfold fetch_next, consumer_next, next, fetch_step, for_questions, bind.
  destruct (client_step (client b) whole_page w) as [[[[q qs] g'|]|e] w'];
    try reflexivity.
  unfold for_question, push_cache_queue, flush_cache_queue, emit, bind, ret; simpl.
  rewrite <- !app_assoc. reflexivity.
Qed.

Lemma backend_next_start b from_date (w : world) :
  backend_next b (F_Start from_date) w =
  backend_next b (F_Suspended [] (get_questions (since from_date)))
    (World (net w)
       (trace w ++ [EvLog (LogLooking (site b) (tagged b) (since from_date));
                    EvPurge])).
Proof.
  unfold fetch_next, consumer_next, next, fetch_step, logger_info,
    purge_cache_queue, emit, bind, since; simpl.
  rewrite <- !app_assoc. reflexivity.
Qed.

Lemma backend_next_finished b (w : world) :
  backend_next b F_Finished w = (StopIteration, F_Finished, w).
Proof. reflexivity. Qed.

(** *** What a whole run leaves in the trace *)

Local Notation fetch_tail := (@fetch_tail question mktime urljoin).
Local Notation request_carries := (request_carries mktime).

Lemma fetch_tail_app c from_date (a d : list event) :
  fetch_tail c from_date a -> fetch_tail c from_date d ->
  fetch_tail c from_date (a ++ d).
Proof.
  induction 1; intros Hd; simpl;
    [assumption|apply tail_client; auto|apply tail_question; auto].
Qed.

Lemma fetch_tail_of_client c from_date (d : list event) :
  Forall (client_event c from_date) d -> fetch_tail c from_date d.
Proof. induction 1; [apply tail_nil|apply tail_client; assumption]. Qed.

Lemma fetch_tail_no_purge c from_date (d : list event) :
  fetch_tail c from_date d -> ~ In EvPurge d.
Proof.
  induction 1 as [|ev d Hev _ IH|q d _ IH]; simpl.
  - tauto.
  - intros [Heq|Hin]; [subst ev; destruct Hev|tauto].
  - intros [?|[?|[?|?]]]; try discriminate. tauto.
Qed.

Lemma fetch_tail_pushed c from_date (d : list event) :
  fetch_tail c from_date d ->
  forall pre q post, d = pre ++ EvYield q :: post ->
    exists pre', pre = pre' ++ [EvPush q; EvFlush].
Proof.
  induction 1 as [|ev d Hev _ IH|q0 d _ IH]; intros pre q post Heq.
  - destruct pre; discriminate.
  - destruct pre as [|x pre]; simpl in Heq; injection Heq as -> ->.
    + destruct Hev.
    + destruct (IH _ _ _ eq_refl) as [pre' ->]. exists (x :: pre'). reflexivity.
  - destruct pre as [|x1 [|x2 [|x3 pre]]]; simpl in Heq; simplify_eq.
    + exists []. reflexivity.
    + destruct (IH _ _ _ eq_refl) as [pre' ->].
      exists (EvPush q0 :: EvFlush :: EvYield q0 :: pre'). reflexivity.
Qed.

Lemma page_request_carries c from_date page :
  (1 <= page)%Z ->
  request_carries c from_date (payload c page from_date "desc" "activity").
Proof.
  intros Hpage. unfold request_carries, build_payload.
  destruct from_date as [d|]; simpl;
    (split; [exists page; split; [exact Hpage|]|]); repeat split;
    by simplify_map_eq.
Qed.

Lemma payload_page c page from_date order sort :
  payload c page from_date order sort !! "page" = Some (PyInt page).
Proof. unfold build_payload. destruct from_date as [d|]; by simplify_map_eq. Qed.

Lemma pages_asked_app (ps1 ps2 : list (gmap string pyval)) :
  pages_asked (ps1 ++ ps2) = pages_asked ps1 ++ pages_asked ps2.
Proof. apply map_app. Qed.

Lemma pages_asked_payloads c from_date order sort (ps : list Z) :
  pages_asked (map (fun p => payload c p from_date order sort) ps)
  = map (fun p => Some (PyInt p)) ps.
Proof.
  induction ps as [|p ps IH]; [reflexivity|].
  cbn [map pages_asked]. rewrite payload_page. f_equal. exact IH.
Qed.

Lemma client_events_carry c from_date (d : list event) :
  Forall (client_event c from_date) d ->
  Forall (request_carries c from_date) (requests d).
Proof.
  induction 1 as [|ev d Hev _ IH]; simpl; [constructor|].
  destruct ev; simpl in Hev; try assumption; try contradiction.
  destruct Hev as (page & Hpage & Heq). injection Heq as -> ->.
  constructor; [apply page_request_carries; exact Hpage|exact IH].
Qed.

Lemma fetch_tail_requests c from_date (d : list event) :
  fetch_tail c from_date d ->
  Forall (request_carries c from_date) (requests d).
Proof.
  induction 1 as [|ev d Hev _ IH|q d _ IH]; [constructor| |exact IH].
  change (ev :: d) with ([ev] ++ d). rewrite requests_app.
  apply Forall_app. split; [|exact IH].
  apply client_events_carry. constructor; [exact Hev|constructor].
Qed.

Lemma backend_next_resumed b from_date (g : fetch_state) (w : world) :
  resumed from_date g ->
  exists d,
    trace (backend_next b g w).2 = trace w ++ d
    /\ fetch_tail (client b) from_date d
    /\ yielded d = values [(backend_next b g w).1.1]
    /\ resumed from_date (backend_next b g w).1.2.
Proof.
  intros Hg. destruct g as [fd|[|q qs] gq|]; simpl in Hg.
  - contradiction.
  - rewrite backend_next_page.
    destruct (client_step_shape (client b) from_date gq w Hg) as (d & Htr & Hd & Hinv).
    destruct (client_step (client b) gq w) as [[[[q qs] g'|]|e] w']; simpl in *.
    + exists (d ++ [EvPush q; EvFlush; EvYield q]).
      rewrite Htr, <- app_assoc. split; [reflexivity|].
      split; [apply fetch_tail_app; [apply fetch_tail_of_client; exact Hd|
                                     apply tail_question, tail_nil]|].
      rewrite yielded_app. split; [|eapply Hinv; reflexivity].
      assert (yielded d = []) as ->; [|reflexivity].
      clear -Hd. induction Hd as [|ev d Hev _ IH]; [reflexivity|].
      destruct ev; simpl in *; solve [assumption|contradiction].
    + exists d. split; [exact Htr|]. split; [apply fetch_tail_of_client; exact Hd|].
      split; [|exact I].
      clear -Hd. induction Hd as [|ev d Hev _ IH]; [reflexivity|].
      destruct ev; simpl in *; solve [assumption|contradiction].
    + exists d. split; [exact Htr|]. split; [apply fetch_tail_of_client; exact Hd|].
      split; [|exact I].
      clear -Hd. induction Hd as [|ev d Hev _ IH]; [reflexivity|].
      destruct ev; simpl in *; solve [assumption|contradiction].
  - rewrite backend_next_question. simpl.
    exists [EvPush q; EvFlush; EvYield q]. repeat split; [|exact Hg].
    apply tail_question, tail_nil.
  - exists []. rewrite backend_next_finished, app_nil_r. simpl.
    repeat split. constructor.
Qed.

Lemma pull_resumed b from_date k (g : fetch_state) (w : world) :
  resumed from_date g ->
  exists d,
    trace (pull (backend_next b) k g w).2 = trace w ++ d
    /\ fetch_tail (client b) from_date d
    /\ yielded d = values (pull (backend_next b) k g w).1.1
    /\ resumed from_date (pull (backend_next b) k g w).1.2.
Proof.
  revert g w. induction k as [|k IH]; intros g w Hg; simpl.
  - exists []. rewrite app_nil_r. repeat split; [constructor|exact Hg].
  - destruct (backend_next_resumed b from_date g w Hg) as (d1 & Htr1 & Hd1 & Hy1 & Hg1).
    destruct (backend_next b g w) as [[o g1] w1]; simpl in *.
    destruct (IH g1 w1 Hg1) as (d2 & Htr2 & Hd2 & Hy2 & Hg2).
    destruct (pull (backend_next b) k g1 w1) as [[os g2] w2]; simpl in *.
    exists (d1 ++ d2). rewrite Htr2, Htr1, <- app_assoc.
    split; [reflexivity|]. split; [apply fetch_tail_app; assumption|].
    rewrite yielded_app, Hy1, Hy2. split; [|exact Hg2].
    destruct o; reflexivity.
Qed.

Lemma pull_start b from_date k (w : world) :
  pull (backend_next b) (S k) (fetch from_date) w =
  pull (backend_next b) (S k) (F_Suspended [] (get_questions (since from_date)))
    (World (net w)
       (trace w ++ [EvLog (LogLooking (site b) (tagged b) (since from_date));
                    EvPurge])).
Proof. unfold fetch. simpl. rewrite backend_next_start. reflexivity. Qed.

Lemma pull_fetch_shape b from_date k (w : world) :
  exists rest,
    trace (pull (backend_next b) (S k) (fetch from_date) w).2
      = trace w ++ EvLog (LogLooking (site b) (tagged b) (since from_date))
                   :: EvPurge :: rest
    /\ fetch_tail (client b) (since from_date) rest
    /\ yielded rest = values (pull (backend_next b) (S k) (fetch from_date) w).1.1.
Proof.
  rewrite pull_start.
  edestruct (pull_resumed b (since from_date) (S k)) as (d & Htr & Hd & Hy & _);
    [|exists d; rewrite Htr; simpl trace; rewrite <- app_assoc;
      split; [reflexivity|split; [exact Hd|exact Hy]]].
  simpl. reflexivity.
Qed.

Lemma client_next_shape c from_date (g : gq_state) (w : world) :
  client_inv from_date g ->
  exists d,
    trace (client_next c g w).2 = trace w ++ d
    /\ Forall (client_event c from_date) d
    /\ client_inv from_date (client_next c g w).1.2.
Proof.
  intros Hg. unfold next.
  destruct (client_step_shape c from_date g w Hg) as (d & Htr & Hd & Hinv).
  destruct (client_step c g w) as [[[a g'|]|e] w']; simpl in *;
    exists d; (split; [exact Htr|split; [exact Hd|]]);
    [eapply Hinv; reflexivity|exact I|exact I].
Qed.

Lemma client_pull_shape c from_date k (g : gq_state) (w : world) :
  client_inv from_date g ->
  exists d,
    trace (pull (client_next c) k g w).2 = trace w ++ d
    /\ Forall (client_event c from_date) d.
Proof.
  revert g w. induction k as [|k IH]; intros g w Hg; simpl.
  - exists []. rewrite app_nil_r. split; [reflexivity|constructor].
  - destruct (client_next_shape c from_date g w Hg) as (d1 & Htr1 & Hd1 & Hg1).
    destruct (client_next c g w) as [[o g1] w1]; simpl in *.
    destruct (IH g1 w1 Hg1) as (d2 & Htr2 & Hd2).
    destruct (pull (client_next c) k g1 w1) as [[os g2] w2]; simpl in *.
    exists (d1 ++ d2). rewrite Htr2, Htr1, <- app_assoc.
    split; [reflexivity|]. apply Forall_app. split; assumption.
Qed.

(** *** The claims on the parameters of a request *)

(** C1 (as the code has it): [fetch] with an unset bound runs, from the
    first [next] on, exactly as [fetch(DEFAULT_DATETIME)]; each of its
    requests carries [min], the conversion of [DEFAULT_DATETIME], a value
    that no clock enters.  It is the client called directly with an unset
    bound whose requests carry no [min]. *)
Theorem unset_since_is_default_datetime b c k (w : world) :
  pull (backend_next b) (S k) (fetch None) w
    = pull (backend_next b) (S k) (fetch (Some DEFAULT_DATETIME)) w
  /\ (exists d,
        trace (pull (backend_next b) k (fetch None) w).2 = trace w ++ d
        /\ Forall (fun params => params !! "min" = Some (PyInt (mktime DEFAULT_DATETIME)))
             (requests d))
  /\ (exists d,
        trace (pull (client_next c) k (get_questions None) w).2 = trace w ++ d
        /\ Forall (fun params => params !! "min" = None) (requests d)).
Proof.
  split; [|split].
  - rewrite !pull_start. reflexivity.
  - destruct k as [|k].
    + exists []. rewrite app_nil_r. split; [reflexivity|constructor].
    + destruct (pull_fetch_shape b None k w) as (rest & Htr & Hrest & _).
      eexists. split; [exact Htr|]. simpl.
      eapply Forall_impl; [apply fetch_tail_requests; exact Hrest|].
      intros params Hp. apply Hp.
  - destruct (client_pull_shape c None k (get_questions None) w)
      as (d & Htr & Hd); [reflexivity|].
    exists d. split; [exact Htr|].
    eapply Forall_impl; [apply client_events_carry; exact Hd|].
    intros params Hp. apply Hp.
Qed.

(** *** The order of cache calls *)

(** C4: once the consumer has called [next] at least once, the trace of
    this [fetch] is a log record, one purge of the cache queue, and then a
    tail free of purges in which every question handed to the consumer is
    immediately preceded by its push and a flush; the questions handed
    over are exactly those the consumer received.  This holds wherever the
    consumer stops. *)
Theorem fetch_purges_once_pushes_and_flushes_before_yield b from_date k (w : world) :
  exists looking rest,
    trace (pull (backend_next b) (S k) (fetch from_date) w).2
      = trace w ++ EvLog looking :: EvPurge :: rest
    /\ ~ In EvPurge rest
    /\ yielded rest = values (pull (backend_next b) (S k) (fetch from_date) w).1.1
    /\ (forall pre q post, rest = pre ++ EvYield q :: post ->
          exists pre', pre = pre' ++ [EvPush q; EvFlush]).
Proof.
  destruct (pull_fetch_shape b from_date k w) as (rest & Htr & Hrest & Hy).
  eexists _, rest. split; [exact Htr|].
  split; [eapply fetch_tail_no_purge; exact Hrest|].
  split; [exact Hy|]. eapply fetch_tail_pushed; exact Hrest.
Qed.

(** *** Walking the pages *)

Local Notation handed := (@handed question).

Lemma pull_app {G A} (nxt : G -> world -> outcome A * G * world) a k g w :
  pull nxt (a + k) g w =
  let '(os, g', w') := pull nxt a g w in
  let '(os', g'', w'') := pull nxt k g' w' in
  (os ++ os', g'', w'').
Proof.
  revert g w. induction a as [|a IH]; intros g w; simpl.
  - destruct (pull nxt k g w) as [[os' g''] w'']. reflexivity.
  - destruct (nxt g w) as [[o g1] w1]. rewrite IH.
    destruct (pull nxt a g1 w1) as [[os g'] w'].
    destruct (pull nxt k g' w') as [[os' g''] w'']. reflexivity.
Qed.

Lemma pull_backend_finished b k (w : world) :
  pull (backend_next b) k F_Finished w = (repeat StopIteration k, F_Finished, w).
Proof.
  induction k as [|k IH]; [reflexivity|].
  cbn [pull]. rewrite backend_next_finished, IH. reflexivity.
Qed.

Lemma pull_client_finished c k (w : world) :
  pull (client_next c) k GQ_Finished w = (repeat StopIteration k, GQ_Finished, w).
Proof.
  induction k as [|k IH]; [reflexivity|].
  cbn [pull]. unfold next at 1. rewrite client_step_finished, IH. reflexivity.
Qed.

Lemma pull_questions b qs (whole_page : gq_state) (w : world) :
  pull (backend_next b) (length qs) (F_Suspended qs whole_page) w =
  (map Yield qs, F_Suspended [] whole_page,
   World (net w) (trace w ++ handed qs)).
Proof.
  revert w. induction qs as [|q qs IH]; intros w; cbn [pull length map].
  - unfold handed. simpl. rewrite app_nil_r. destruct w; reflexivity.
  - rewrite backend_next_question, IH. simpl.
    unfold handed. simpl. rewrite <- app_assoc. reflexivity.
Qed.

Lemma client_step_round c (g : gq_state) from_date page (w : world) :
  next_page g = Some (from_date, page) ->
  client_step c g w = page_round c from_date page (fetched_of g) w.
Proof.
  intros Heq. destruct g as [fd|fd p req f|]; simpl in Heq.
  - injection Heq as -> <-. apply client_step_start.
  - rewrite client_step_resume. destruct (body req) as [j0|]; [|discriminate].
    destruct (has_more j0); [|discriminate]. injection Heq as -> <-. reflexivity.
  - discriminate.
Qed.

Lemma page_round_delivers c from_date page fetched r j rs (tr : list event) :
  delivers r j ->
  page_round c from_date page fetched (World (r :: rs) tr) =
  (match items j with
   | q :: qs =>
       Ok (Yielded (q, qs)
             (GQ_Suspended from_date page r (fetched + counted j)))
   | [] => Ok Stopped
   end,
   World rs (tr ++ page_request c from_date page
                :: page_log j (fetched + counted j))).
Proof.
  intros [Hstatus Hbody]. unfold page_round. simpl.
  rewrite Hstatus, Hbody, <- app_assoc. reflexivity.
Qed.

Lemma requests_page_log (j : wrapper) fetched : requests (page_log j fetched) = [].
Proof. reflexivity. Qed.

Lemma yielded_page_log (j : wrapper) fetched : yielded (page_log j fetched) = [].
Proof. reflexivity. Qed.

Lemma requests_handed qs : requests (handed qs) = [].
Proof. induction qs as [|q qs IH]; [reflexivity|exact IH]. Qed.

Lemma yielded_handed qs : yielded (handed qs) = qs.
Proof.
  induction qs as [|q qs IH]; [reflexivity|].
  unfold handed in *. simpl. rewrite IH. reflexivity.
Qed.

(** A page arrives for a resumed [fetch]: its questions go to the
    consumer one by one, after which [fetch] is back at the client. *)
Lemma pull_page b (g : gq_state) from_date page r j q qs rs (tr : list event) :
  next_page g = Some (from_date, page) ->
  delivers r j -> items j = q :: qs ->
  pull (backend_next b) (S (length qs)) (F_Suspended [] g) (World (r :: rs) tr) =
  (map Yield (q :: qs),
   F_Suspended [] (GQ_Suspended from_date page r (fetched_of g + counted j)),
   World rs (tr ++ page_request (client b) from_date page
                :: page_log j (fetched_of g + counted j) ++ handed (q :: qs))).
Proof.
  intros Hnext Hr Hitems.
  cbn [pull]. rewrite backend_next_page, (client_step_round _ _ _ _ _ Hnext).
  rewrite (page_round_delivers _ _ _ _ _ _ _ _ Hr), Hitems.
  rewrite pull_questions. simpl.
  unfold handed. simpl. rewrite <- ?app_assoc. simpl. rewrite <- ?app_assoc.
  reflexivity.
Qed.

Lemma next_world {G A} (step : G -> M (gstep A G)) (finished : G) g (w : world) :
  (next step finished g w).2 = (step g w).2.
Proof. unfold next. destruct (step g w) as [[[a g'|]|e] w']; reflexivity. Qed.

Lemma requests_page_round c from_date page fetched (w : world) :
  requests (trace (page_round c from_date page fetched w).2)
  = requests (trace w) ++ [payload c page from_date "desc" "activity"].
Proof.
  unfold page_round. destruct (net w) as [|r rs]; simpl.
  - rewrite requests_app. reflexivity.
  - destruct (_ && _); simpl; [rewrite requests_app; reflexivity|].
    destruct (body r) as [j|]; simpl; rewrite !requests_app; simpl;
      rewrite ?app_nil_r; reflexivity.
Qed.

Lemma requests_page_events c from_date page (j : wrapper) fetched qs (tr : list event) :
  requests (tr ++ page_request c from_date page :: page_log j fetched ++ handed qs)
  = requests tr ++ [payload c page from_date "desc" "activity"].
Proof.
  rewrite requests_app. cbn [requests page_request].
  rewrite requests_app, requests_handed. reflexivity.
Qed.

Lemma yielded_page_events c from_date page (j : wrapper) fetched qs (tr : list event) :
  yielded (tr ++ page_request c from_date page :: page_log j fetched ++ handed qs)
  = yielded tr ++ qs.
Proof.
  rewrite yielded_app. cbn [yielded page_request].
  rewrite yielded_app, yielded_handed. reflexivity.
Qed.

Lemma client_step_exhausted c from_date page req j fetched (w : world) :
  body req = JWrapper j -> has_more j = false ->
  client_step c (GQ_Suspended from_date page req fetched) w = (Ok Stopped, w).
Proof. intros Hbody Hmore. rewrite client_step_resume, Hbody, Hmore. reflexivity. Qed.

(** From a frame about to ask for [page]: the pages [js], each with
    questions and [has_more], then a last page with questions and without
    [has_more]. *)
Lemma walk_pages b from_date r_last j_last extra :
  delivers r_last j_last -> has_more j_last = false -> items j_last <> [] ->
  forall js rs (g : gq_state) page (tr : list event),
    next_page g = Some (from_date, page) ->
    Forall2 delivers rs js ->
    Forall (fun j => has_more j = true /\ items j <> []) js ->
    exists tr',
      pull (backend_next b) (S (length (concat (map items (js ++ [j_last])))))
        (F_Suspended [] g) (World (rs ++ r_last :: extra) tr)
      = (map Yield (concat (map items (js ++ [j_last]))) ++ [StopIteration],
         F_Finished, World extra tr')
      /\ requests tr' =
           requests tr ++
           map (fun p => payload (client b) p from_date "desc" "activity")
             (pages_from page (S (length js)))
      /\ yielded tr' = yielded tr ++ concat (map items (js ++ [j_last])).
Proof.
  intros Hlast Hmore Hitems.
  induction js as [|j js IH]; intros rs g page tr Hnext Hrs Hjs.
  - apply Forall2_nil_inv_r in Hrs. subst rs. cbn [app map concat].
    rewrite app_nil_r.
    destruct (items j_last) as [|q qs] eqn:Hq; [contradiction|].
    cbn [length].
    replace (S (S (length qs))) with (S (length qs) + 1) by lia.
    rewrite pull_app, (pull_page _ _ _ _ _ _ _ _ _ _ Hnext Hlast Hq).
    cbn [pull]. rewrite backend_next_page.
    rewrite (client_step_exhausted _ _ _ _ j_last _ _ (proj2 Hlast) Hmore).
    eexists. split; [reflexivity|].
    rewrite requests_page_events, yielded_page_events. split; reflexivity.
  - apply Forall2_cons_inv_r in Hrs. destruct Hrs as (r & rs' & Hr & Hrs' & ->).
    apply Forall_cons in Hjs. destruct Hjs as [[Hjmore Hjitems] Hjs].
    destruct (items j) as [|q qs] eqn:Hq; [contradiction|].
    cbn [map concat app]. rewrite Hq.
    set (rest := concat (map items (js ++ [j_last]))).
    replace (S (length ((q :: qs) ++ rest)))
      with (S (length qs) + S (length rest))
      by (rewrite length_app; simpl; lia).
    rewrite pull_app, (pull_page _ _ _ _ _ _ _ _ _ _ Hnext Hr Hq).
    edestruct (IH rs' (GQ_Suspended from_date page r (fetched_of g + counted j))
                 (page + 1)%Z) as (tr' & Hpull & Hreq & Hy);
      [|exact Hrs'|exact Hjs|].
    { simpl. rewrite (proj2 Hr), Hjmore. reflexivity. }
    fold rest in Hpull, Hy. rewrite Hpull.
    exists tr'. split; [rewrite map_app, <- app_assoc; reflexivity|].
    rewrite Hreq, Hy, requests_page_events, yielded_page_events.
    rewrite <- !app_assoc. split; reflexivity.
Qed.

(** C5: when the server answers with pages that all hold questions, all
    but the last saying [has_more], the consumer receives the questions
    of the pages, concatenated in page order, and then the end of the
    iteration; [fetch] consumed exactly these answers and sent the
    requests for the pages 1, 2, ..., n, in that order: the [page]
    parameters of the requests sent are 1, 2, ..., n.  After a page, the
    client asks for the next one, with the page number one higher,
    exactly when that answer says [has_more]. *)
Theorem fetch_yields_pages_in_order b from_date
    (rs : list response) (js : list wrapper) r_last j_last extra (tr : list event) :
  Forall2 delivers rs js ->
  Forall (fun j => has_more j = true /\ items j <> []) js ->
  delivers r_last j_last -> has_more j_last = false -> items j_last <> [] ->
  let qs := concat (map items (js ++ [j_last])) in
  (exists tr',
     pull (backend_next b) (S (length qs)) (fetch from_date)
       (World (rs ++ r_last :: extra) tr)
     = (map Yield qs ++ [StopIteration], F_Finished, World extra tr')
     /\ requests tr' =
          requests tr ++
          map (fun p => payload (client b) p (since from_date) "desc" "activity")
            (pages_from 1 (length (js ++ [j_last])))
     /\ pages_asked (requests tr') =
          pages_asked (requests tr) ++
          map (fun p => Some (PyInt p)) (pages_from 1 (length (js ++ [j_last])))
     /\ yielded tr' = yielded tr ++ qs)
  /\ (forall fd page req j fetched (w : world),
        body req = JWrapper j ->
        requests (trace (client_next (client b)
                           (GQ_Suspended fd page req fetched) w).2)
        = requests (trace w) ++
          (if has_more j
           then [payload (client b) (page + 1)%Z fd "desc" "activity"]
           else [])
        /\ pages_asked (requests (trace (client_next (client b)
                                          (GQ_Suspended fd page req fetched) w).2))
           = pages_asked (requests (trace w)) ++
             (if has_more j then [Some (PyInt (page + 1))] else [])).
Proof.
  intros Hrs Hjs Hlast Hmore Hitems qs. split.
  - rewrite pull_start.
    edestruct (walk_pages b (since from_date) r_last j_last extra Hlast Hmore Hitems
                 js rs (get_questions (since from_date)) 1%Z)
      as (tr' & Hpull & Hreq & Hy); [reflexivity|exact Hrs|exact Hjs|].
    exists tr'. split; [exact Hpull|].
    rewrite requests_app in Hreq. rewrite yielded_app in Hy.
    cbn [requests yielded trace] in Hreq, Hy. rewrite app_nil_r in Hreq, Hy.
    replace (length (js ++ [j_last])) with (S (length js))
      by (rewrite length_app; simpl; lia).
    split; [exact Hreq|]. split; [|exact Hy].
    rewrite Hreq, pages_asked_app, pages_asked_payloads. reflexivity.
  - intros fd page req j fetched w Hbody.
    assert (Hreq : requests (trace (client_next (client b)
                                      (GQ_Suspended fd page req fetched) w).2)
                   = requests (trace w) ++
                     (if has_more j
                      then [payload (client b) (page + 1)%Z fd "desc" "activity"]
                      else [])).
    { rewrite next_world, client_step_resume, Hbody.
      destruct (has_more j); [apply requests_page_round|].
      simpl. rewrite app_nil_r. reflexivity. }
    split; [exact Hreq|].
    rewrite Hreq, pages_asked_app. destruct (has_more j); [|reflexivity].
    cbn [pages_asked map]. rewrite payload_page. reflexivity.
Qed.

(** *** The first page, and pages without questions *)

Lemma page_log_no_questions (j : wrapper) fetched :
  total j = 0%Z ->
  page_log j fetched =
  [EvLog (LogRateLimit (quota_remaining j) (quota_max j)); EvLog LogNoQuestions].
Proof. intros Htotal. unfold page_log, status_log. rewrite Htotal. reflexivity. Qed.

(** C6: when the first answer holds no question, every [next] of the
    consumer finds the iteration ended; the trace holds the log record of
    [fetch], the purge, the one request for page 1 and the two status
    records: no question went out and no second request.  And an answer
    whose [total] is 0, at whatever page it arrives, makes the client log
    that no questions were found; the step does not raise. *)
Theorem empty_first_page_ends_fetch b from_date r j rs (tr : list event) k
    c (g : gq_state) fd page :
  delivers r j ->
  (items j = [] ->
   pull (backend_next b) (S k) (fetch from_date) (World (r :: rs) tr)
   = (repeat StopIteration (S k), F_Finished,
      World rs
        (tr ++ [EvLog (LogLooking (site b) (tagged b) (since from_date));
                EvPurge;
                page_request (client b) (since from_date) 1]
            ++ page_log j (counted j))))
  /\ (total j = 0%Z -> next_page g = Some (fd, page) ->
      exists res,
        client_step c g (World (r :: rs) tr)
        = (Ok res,
           World rs
             (tr ++ [page_request c fd page;
                     EvLog (LogRateLimit (quota_remaining j) (quota_max j));
                     EvLog LogNoQuestions]))).
Proof.
  intros Hr. split.
  - intros Hitems. rewrite pull_start. cbn [pull].
    rewrite backend_next_page, client_step_start. cbn [net trace].
    rewrite (page_round_delivers _ _ _ _ _ _ _ _ Hr), Hitems.
    rewrite pull_backend_finished. cbn [net trace repeat].
    rewrite Z.add_0_l, <- !app_assoc. reflexivity.
  - intros Htotal Hnext.
    rewrite (client_step_round _ _ _ _ _ Hnext).
    rewrite (page_round_delivers _ _ _ _ _ _ _ _ Hr).
    rewrite (page_log_no_questions _ _ Htotal).
    destruct (items j); eexists; reflexivity.
Qed.

(** *** Error answers *)

Lemma page_round_error c from_date page fetched r rs (tr : list event) :
  (400 <= status_code r < 600)%Z ->
  page_round c from_date page fetched (World (r :: rs) tr)
  = (Exc (HTTPError r), World rs (tr ++ [page_request c from_date page])).
Proof.
  intros Hstatus. unfold page_round. simpl.
  replace ((400 <=? status_code r) && (status_code r <? 600))%Z with true;
    [reflexivity|].
  symmetry. apply andb_true_intro. split; [apply Z.leb_le|apply Z.ltb_lt]; lia.
Qed.

(** C3 (as the code has it): when the answer to a request has a client
    or server error status (400 to 599), that [next] raises [HTTPError]
    carrying the answer, the generator is finished, and however often the
    consumer calls [next] again, nothing more is sent: the trace ends
    with the failed request and the rest of the script is untouched.
    This holds for the client, for a [fetch] waiting for a page, and for
    a [fetch] just called. *)
Theorem error_status_raises_and_stops b from_date (g : gq_state) fd page r rs
    (tr : list event) k :
  next_page g = Some (fd, page) ->
  (400 <= status_code r < 600)%Z ->
  pull (client_next (client b)) (S k) g (World (r :: rs) tr)
  = (Raise (HTTPError r) :: repeat StopIteration k, GQ_Finished,
     World rs (tr ++ [page_request (client b) fd page]))
  /\ pull (backend_next b) (S k) (F_Suspended [] g) (World (r :: rs) tr)
    = (Raise (HTTPError r) :: repeat StopIteration k, F_Finished,
       World rs (tr ++ [page_request (client b) fd page]))
  /\ pull (backend_next b) (S k) (fetch from_date) (World (r :: rs) tr)
    = (Raise (HTTPError r) :: repeat StopIteration k, F_Finished,
       World rs
         (tr ++ [EvLog (LogLooking (site b) (tagged b) (since from_date));
                 EvPurge;
                 page_request (client b) (since from_date) 1])).
Proof.
  intros Hnext Hstatus. split; [|split].
  - cbn [pull]. unfold next at 1.
    rewrite (client_step_round _ _ _ _ _ Hnext), (page_round_error _ _ _ _ _ _ _ Hstatus).
    rewrite pull_client_finished. reflexivity.
  - cbn [pull]. rewrite backend_next_page.
    rewrite (client_step_round _ _ _ _ _ Hnext), (page_round_error _ _ _ _ _ _ _ Hstatus).
    rewrite pull_backend_finished. reflexivity.
  - rewrite pull_start. cbn [pull].
    rewrite backend_next_page, client_step_start.
    cbn [net trace]. rewrite (page_round_error _ _ _ _ _ _ _ Hstatus).
    rewrite pull_backend_finished, <- app_assoc. reflexivity.
Qed.

(** *** The cache *)

Local Notation cache_next b := (fetch_from_cache_next b).

Lemma cache_next_finished (b : StackExchange) (w : world) :
  cache_next b FC_Finished w = (StopIteration, FC_Finished, w).
Proof. reflexivity. Qed.

Lemma cache_next_item (b : StackExchange) q qs (w : world) :
  cache_next b (FC_Suspended (q :: qs)) w
  = (Yield q, FC_Suspended qs, World (net w) (trace w ++ [EvYield q])).
Proof. reflexivity. Qed.

Lemma pull_cache_finished (b : StackExchange) k (w : world) :
  pull (cache_next b) k FC_Finished w = (repeat StopIteration k, FC_Finished, w).
Proof.
  induction k as [|k IH]; [reflexivity|].
  cbn [pull]. rewrite cache_next_finished, IH. reflexivity.
Qed.

Lemma pull_cache_items (b : StackExchange) qs k (w : world) :
  pull (cache_next b) (length qs + S k) (FC_Suspended qs) w
  = (map Yield qs ++ repeat StopIteration (S k), FC_Finished,
     World (net w) (trace w ++ map EvYield qs)).
Proof.
  revert w. induction qs as [|q qs IH]; intros w.
  - cbn [length Nat.add pull].
    change (cache_next b (FC_Suspended []) w)
      with (@StopIteration question question, @FC_Finished question, w).
    cbv iota beta. rewrite pull_cache_finished.
    simpl. rewrite app_nil_r. destruct w; reflexivity.
  - cbn [length Nat.add pull].
    rewrite cache_next_item, IH. simpl. rewrite <- app_assoc. reflexivity.
Qed.

Lemma cache_next_quiet (b : StackExchange) (g : cache_state) (w : world) :
  net (cache_next b g w).2 = net w
  /\ exists qs, trace (cache_next b g w).2 = trace w ++ map EvYield qs.
Proof.
  unfold fetch_from_cache_next, consumer_next, next, fetch_from_cache_step.
  destruct g as [|[|q qs]|]; simpl.
  - destruct (cache b) as [[[|q qs]]|]; simpl;
      (split; [reflexivity|]);
      try (exists []; simpl; rewrite app_nil_r; reflexivity).
    exists [q]. reflexivity.
  - split; [reflexivity|]. exists []. simpl. rewrite app_nil_r. reflexivity.
  - split; [reflexivity|]. exists [q]. reflexivity.
  - split; [reflexivity|]. exists []. simpl. rewrite app_nil_r. reflexivity.
Qed.

(** C7: for a connector constructed without a cache, the first [next] on
    [fetch_from_cache()] raises [CacheError], no question comes before or
    after it, and the world is left as it was.  With a cache, the
    consumer receives the items [retrieve()] produces, in that order, and
    then the end of the iteration.  Either way, however long the consumer
    goes on, the script of the server is untouched and the trace only
    grows by the questions handed over: nothing is requested. *)
Theorem fetch_from_cache_reads_only_the_cache site0 tagged0 token mq (c : Cache)
    (b : StackExchange) k (w : world) :
  pull (cache_next (StackExchange_init site0 tagged0 token mq None)) (S k)
    fetch_from_cache w
  = (Raise (CacheError "cache instance was not provided")
       :: repeat StopIteration k, FC_Finished, w)
  /\ pull (cache_next (StackExchange_init site0 tagged0 token mq (Some c)))
       (length (retrieve c) + S k) fetch_from_cache w
    = (map Yield (retrieve c) ++ repeat StopIteration (S k), FC_Finished,
       World (net w) (trace w ++ map EvYield (retrieve c)))
  /\ net (pull (cache_next b) k fetch_from_cache w).2 = net w
  /\ exists qs,
       trace (pull (cache_next b) k fetch_from_cache w).2
       = trace w ++ map EvYield qs.
Proof.
  split; [|split].
  - cbn [pull].
    change (cache_next (StackExchange_init site0 tagged0 token mq None)
              fetch_from_cache w)
      with (@Raise question question (CacheError "cache instance was not provided"),
            @FC_Finished question, w).
    cbv iota beta. rewrite pull_cache_finished. reflexivity.
  - destruct c as [qs]. cbn [retrieve].
    rewrite <- (pull_cache_items (StackExchange_init site0 tagged0 token mq (Some (MkCache qs))) qs k w).
    destruct qs as [|q qs]; reflexivity.
  - generalize (fetch_from_cache (question := question)). intros g.
    revert g w. induction k as [|k IH]; intros g w.
    + split; [reflexivity|]. exists []. simpl. rewrite app_nil_r. reflexivity.
    + cbn [pull].
      destruct (cache_next_quiet b g w) as (Hnet & qs1 & Htr).
      destruct (cache_next b g w) as [[o g1] w1]. simpl in Hnet, Htr.
      destruct (IH g1 w1) as (Hnet2 & qs2 & Htr2).
      destruct (pull (cache_next b) k g1 w1) as [[os g2] w2]. simpl in *.
      split; [congruence|]. exists (qs1 ++ qs2).
      rewrite Htr2, Htr, map_app, <- app_assoc. reflexivity.
Qed.

(** *** The [fetched] counter *)

Lemma counted_min (j : wrapper) : counted j = Z.min (page_size j) (total j).
Proof.
  unfold counted. destruct (page_size j >=? total j)%Z eqn:Hge.
  - apply Z.geb_le in Hge. lia.
  - rewrite Z.geb_leb in Hge. apply Z.leb_gt in Hge. lia.
Qed.

Lemma client_next_delivers c (g : gq_state) from_date page r j q qs rs (tr : list event) :
  next_page g = Some (from_date, page) ->
  delivers r j -> items j = q :: qs ->
  client_next c g (World (r :: rs) tr)
  = (Yield (q, qs),
     GQ_Suspended from_date page r (fetched_of g + counted j),
     World rs (tr ++ page_request c from_date page
                  :: page_log j (fetched_of g + counted j))).
Proof.
  intros Hnext Hr Hitems. unfold next.
  rewrite (client_step_round _ _ _ _ _ Hnext).
  rewrite (page_round_delivers _ _ _ _ _ _ _ _ Hr), Hitems. reflexivity.
Qed.

(** The client walks the pages [js], all with questions and [has_more],
    and one more page with questions. *)
Lemma walk_client c from_date r_last j_last extra :
  delivers r_last j_last -> items j_last <> [] ->
  forall js rs (g : gq_state) page (tr : list event),
    next_page g = Some (from_date, page) ->
    Forall2 delivers rs js ->
    Forall (fun j => has_more j = true /\ items j <> []) js ->
    (pull (client_next c) (S (length js)) g (World (rs ++ r_last :: extra) tr)).1.2
    = GQ_Suspended from_date (page + Z.of_nat (length js)) r_last
        (fetched_of g + code_fetched (js ++ [j_last])).
Proof.
  intros Hlast Hitems.
  induction js as [|j js IH]; intros rs g page tr Hnext Hrs Hjs.
  - apply Forall2_nil_inv_r in Hrs. subst rs. cbn [app length pull].
    destruct (items j_last) as [|q qs] eqn:Hq; [contradiction|].
    rewrite (client_next_delivers _ _ _ _ _ _ _ _ _ _ Hnext Hlast Hq).
    simpl. rewrite counted_min. f_equal; lia.
  - apply Forall2_cons_inv_r in Hrs. destruct Hrs as (r & rs' & Hr & Hrs' & ->).
    apply Forall_cons in Hjs. destruct Hjs as [[Hjmore Hjitems] Hjs].
    destruct (items j) as [|q qs] eqn:Hq; [contradiction|].
    change (pull (client_next c) (S (length (j :: js))) g
              (World ((r :: rs') ++ r_last :: extra) tr))
      with (let '(o, g', w') :=
              client_next c g (World (r :: rs' ++ r_last :: extra) tr) in
            let '(os, g'', w'') := pull (client_next c) (S (length js)) g' w' in
            (o :: os, g'', w'')).
    rewrite (client_next_delivers _ _ _ _ _ _ _ _ _ _ Hnext Hr Hq).
    cbv iota beta.
    specialize (IH rs' (GQ_Suspended from_date page r (fetched_of g + counted j))
                  (page + 1)%Z
                  (tr ++ page_request c from_date page
                      :: page_log j (fetched_of g + counted j))).
    destruct (pull (client_next c) (S (length js)) _ _) as [[os g2] w2].
    simpl in IH |- *. rewrite IH; [| |exact Hrs'|exact Hjs].
    + rewrite counted_min. f_equal; lia.
    + rewrite (proj2 Hr), Hjmore. reflexivity.
Qed.

Lemma unlogged_page_log (j : wrapper) fetched : unlogged (page_log j fetched) = [].
Proof. reflexivity. Qed.

Local Notation same_course := (@same_course question).

Lemma page_round_forget c from_date page fetched fetched' (w w' : world) :
  net w = net w' -> unlogged (trace w) = unlogged (trace w') ->
  same_course (page_round c from_date page fetched w)
    (page_round c from_date page fetched' w').
Proof.
  intros Hnet Htr. unfold same_course, page_round. rewrite <- Hnet.
  destruct (net w) as [|r rs]; simpl.
  { rewrite !unlogged_app, Htr. repeat split. }
  destruct (_ && _); simpl.
  { rewrite !unlogged_app, Htr. repeat split. }
  destruct (body r) as [j|]; simpl.
  - destruct (items j); simpl;
      rewrite !unlogged_app, Htr; simpl; rewrite ?unlogged_app, ?unlogged_page_log;
      repeat split.
  - rewrite !unlogged_app, Htr. repeat split.
Qed.

Lemma client_step_forget c (g g' : gq_state) (w w' : world) :
  forget_fetched g = forget_fetched g' ->
  net w = net w' -> unlogged (trace w) = unlogged (trace w') ->
  same_course (client_step c g w) (client_step c g' w').
Proof.
  intros Hg Hnet Htr.
  destruct g as [fd|fd p req f|], g' as [fd'|fd' p' req' f'|];
    simpl in Hg; try discriminate.
  - injection Hg as <-. rewrite !client_step_start.
    apply page_round_forget; assumption.
  - injection Hg as <- <- <-. rewrite !client_step_resume.
    destruct (body req) as [j0|].
    + destruct (has_more j0); [apply page_round_forget; assumption|].
      repeat split; assumption.
    + repeat split; assumption.
  - repeat split; assumption.
Qed.

Lemma pull_client_forget c k (g g' : gq_state) (w w' : world) :
  forget_fetched g = forget_fetched g' ->
  net w = net w' -> unlogged (trace w) = unlogged (trace w') ->
  (pull (client_next c) k g w).1.1 = (pull (client_next c) k g' w').1.1
  /\ forget_fetched (pull (client_next c) k g w).1.2
     = forget_fetched (pull (client_next c) k g' w').1.2
  /\ net (pull (client_next c) k g w).2 = net (pull (client_next c) k g' w').2
  /\ unlogged (trace (pull (client_next c) k g w).2)
     = unlogged (trace (pull (client_next c) k g' w').2).
Proof.
  revert g g' w w'. induction k as [|k IH]; intros g g' w w' Hg Hnet Htr.
  - repeat split; assumption.
  - cbn [pull]. unfold next at 1 3 5 7 9 11 13 15.
    pose proof (client_step_forget c g g' w w' Hg Hnet Htr) as Hstep.
    unfold same_course in Hstep.
    destruct (client_step c g w) as [[[a g1|]|e] w1],
             (client_step c g' w') as [[[a' g1'|]|e'] w1'];
      simpl in Hstep; destruct Hstep as (Hres & Hnet1 & Htr1);
      try contradiction.
    + destruct Hres as [<- Hg1].
      specialize (IH g1 g1' w1 w1' Hg1 Hnet1 Htr1).
      destruct (pull (client_next c) k g1 w1) as [[os g2] w2],
               (pull (client_next c) k g1' w1') as [[os' g2'] w2'].
      simpl in *. destruct IH as (-> & ? & ? & ?). repeat split; assumption.
    + specialize (IH GQ_Finished GQ_Finished w1 w1' eq_refl Hnet1 Htr1).
      destruct (pull (client_next c) k GQ_Finished w1) as [[os g2] w2],
               (pull (client_next c) k GQ_Finished w1') as [[os' g2'] w2'].
      simpl in *. destruct IH as (-> & ? & ? & ?). repeat split; assumption.
    + subst e'.
      specialize (IH GQ_Finished GQ_Finished w1 w1' eq_refl Hnet1 Htr1).
      destruct (pull (client_next c) k GQ_Finished w1) as [[os g2] w2],
               (pull (client_next c) k GQ_Finished w1') as [[os' g2'] w2'].
      simpl in *. destruct IH as (-> & ? & ? & ?). repeat split; assumption.
Qed.

Lemma requests_client_next c (g : gq_state) (w : world) :
  requests (trace (client_next c g w).2)
  = requests (trace w) ++
    match next_page g with
    | Some (fd, page) => [payload c page fd "desc" "activity"]
    | None => []
    end.
Proof.
  rewrite next_world.
  destruct (next_page g) as [[fd page]|] eqn:Hnext.
  - rewrite (client_step_round _ _ _ _ _ Hnext). apply requests_page_round.
  - destruct g as [fd|fd p req f|]; simpl in Hnext; [discriminate| |].
    + rewrite client_step_resume. destruct (body req) as [j0|].
      * destruct (has_more j0); [discriminate|]. simpl. rewrite app_nil_r. reflexivity.
      * simpl. rewrite app_nil_r. reflexivity.
    + simpl. rewrite app_nil_r. reflexivity.
Qed.

(** C2 (as the code has it): after the client has walked pages that all
    hold questions, [fetched] is the sum, over the answers received, of
    [min(page_size, total)] with the [total] of each answer itself.
    [fetched] steers nothing: two runs of the client that differ in
    [fetched] only (and in log records) give the consumer the same
    outcomes, leave the same script and the same trace up to log records,
    and reach frames that again differ in [fetched] only.  A resumed
    client sends a request exactly when [next_page] says so: at the
    start, and after a page whose answer says [has_more]; an answer
    without questions ends the generator, whatever its [has_more]. *)
Theorem fetched_sums_page_counts_and_steers_nothing c from_date
    (rs : list response) (js : list wrapper) r_last j_last extra (tr : list event) :
  Forall2 delivers rs js ->
  Forall (fun j => has_more j = true /\ items j <> []) js ->
  delivers r_last j_last -> items j_last <> [] ->
  (pull (client_next c) (S (length js)) (get_questions from_date)
     (World (rs ++ r_last :: extra) tr)).1.2
  = GQ_Suspended from_date (Z.of_nat (S (length js))) r_last
      (code_fetched (js ++ [j_last]))
  /\ (forall k (g g' : gq_state) (w w' : world),
        forget_fetched g = forget_fetched g' ->
        net w = net w' -> unlogged (trace w) = unlogged (trace w') ->
        (pull (client_next c) k g w).1.1 = (pull (client_next c) k g' w').1.1
        /\ forget_fetched (pull (client_next c) k g w).1.2
           = forget_fetched (pull (client_next c) k g' w').1.2
        /\ net (pull (client_next c) k g w).2
           = net (pull (client_next c) k g' w').2
        /\ unlogged (trace (pull (client_next c) k g w).2)
           = unlogged (trace (pull (client_next c) k g' w').2))
  /\ (forall (g : gq_state) (w : world),
        requests (trace (client_next c g w).2)
        = requests (trace w) ++
          match next_page g with
          | Some (fd, page) => [payload c page fd "desc" "activity"]
          | None => []
          end)
  /\ (forall (g : gq_state) fd page r j rs0 (tr0 : list event),
        next_page g = Some (fd, page) -> delivers r j -> items j = [] ->
        (client_next c g (World (r :: rs0) tr0)).1
        = (StopIteration, GQ_Finished)).
Proof.
  intros Hrs Hjs Hlast Hitems. split; [|split; [|split]].
  - rewrite (walk_client c from_date r_last j_last extra Hlast Hitems js rs
               (get_questions from_date) 1%Z tr eq_refl Hrs Hjs).
    simpl fetched_of. f_equal; lia.
  - intros k g g' w w'. apply pull_client_forget.
  - apply requests_client_next.
  - intros g fd page r j rs0 tr0 Hnext Hr Hempty. unfold next.
    rewrite (client_step_round _ _ _ _ _ Hnext).
    rewrite (page_round_delivers _ _ _ _ _ _ _ _ Hr), Hempty. reflexivity.
Qed.

(** * Further properties of the backend *)

Local Notation page_items := (@page_items question).
Local Notation pending := (@pending question).
Local Notation asked := (@asked question).
Local Notation progress_bounded := (@progress_bounded question).

(** *** Every question delivered is handed over, once and in order *)

Lemma page_round_accounts c from_date page fetched (w : world) :
  exists consumed,
    net w = consumed ++ net (page_round c from_date page fetched w).2
    /\ yielded (trace (page_round c from_date page fetched w).2) = yielded (trace w)
    /\ match (page_round c from_date page fetched w).1 with
       | Ok (Yielded (q, qs) _) => concat (map page_items consumed) = q :: qs
       | _ => concat (map page_items consumed) = []
       end.
Proof.
  unfold page_round. destruct (net w) as [|r rs] eqn:Hnet; simpl.
  { exists []. rewrite yielded_app. simpl. rewrite app_nil_r. repeat split. }
  exists [r]. simpl. unfold page_items.
  destruct (_ && _); simpl.
  { rewrite yielded_app. simpl. rewrite app_nil_r. repeat split. }
  destruct (body r) as [j|]; simpl.
  - rewrite !yielded_app, yielded_page_log. simpl. rewrite !app_nil_r.
    destruct (items j); repeat split.
  - rewrite yielded_app. simpl. rewrite app_nil_r. repeat split.
Qed.

Lemma client_step_accounts c (g : gq_state) (w : world) :
  exists consumed,
    net w = consumed ++ net (client_step c g w).2
    /\ yielded (trace (client_step c g w).2) = yielded (trace w)
    /\ match (client_step c g w).1 with
       | Ok (Yielded (q, qs) _) => concat (map page_items consumed) = q :: qs
       | _ => concat (map page_items consumed) = []
       end.
Proof.
  destruct g as [fd|fd page req fetched|].
  - rewrite client_step_start. apply page_round_accounts.
  - rewrite client_step_resume. destruct (body req) as [j0|].
    + destruct (has_more j0); [apply page_round_accounts|].
      exists []. repeat split.
    + exists []. repeat split.
  - exists []. repeat split.
Qed.

Lemma backend_next_accounts b (g : fetch_state) (w : world) :
  exists consumed,
    net w = consumed ++ net (backend_next b g w).2
    /\ pending g ++ concat (map page_items consumed)
       = values [(backend_next b g w).1.1] ++ pending (backend_next b g w).1.2
    /\ yielded (trace (backend_next b g w).2)
       = yielded (trace w) ++ values [(backend_next b g w).1.1].
Proof.
  assert (Hpage : forall (gq : gq_state) (w0 : world),
    exists consumed,
      net w0 = consumed ++ net (backend_next b (F_Suspended [] gq) w0).2
      /\ concat (map page_items consumed)
         = values [(backend_next b (F_Suspended [] gq) w0).1.1]
           ++ pending (backend_next b (F_Suspended [] gq) w0).1.2
      /\ yielded (trace (backend_next b (F_Suspended [] gq) w0).2)
         = yielded (trace w0) ++ values [(backend_next b (F_Suspended [] gq) w0).1.1]).
  { intros gq w0. rewrite backend_next_page.
    destruct (client_step_accounts (client b) gq w0) as (consumed & Hnet & Hy & Hitems).
    exists consumed.
    destruct (client_step (client b) gq w0) as [[[[q qs] g'|]|e] w']; simpl in *.
    - rewrite yielded_app, Hy. repeat split; assumption.
    - rewrite app_nil_r. repeat split; assumption.
    - rewrite app_nil_r. repeat split; assumption. }
  destruct g as [fd|[|q qs] gq|].
  - rewrite backend_next_start.
    destruct (Hpage (get_questions (since fd))
                (World (net w)
                   (trace w ++ [EvLog (LogLooking (site b) (tagged b) (since fd));
                                EvPurge])))
      as (consumed & Hnet & Hitems & Hy).
    exists consumed. simpl in Hnet, Hy. rewrite yielded_app in Hy. simpl in Hy.
    rewrite app_nil_r in Hy. repeat split; assumption.
  - apply Hpage.
  - rewrite backend_next_question. exists []. simpl.
    rewrite yielded_app, app_nil_r. repeat split.
  - rewrite backend_next_finished. exists []. simpl.
    rewrite app_nil_r. repeat split.
Qed.

Lemma values_app {A} (os os' : list (outcome (question := question) A)) :
  values (os ++ os') = values os ++ values os'.
Proof.
  induction os as [|o os IH]; [reflexivity|].
  destruct o; simpl; rewrite ?IH; reflexivity.
Qed.

Lemma pull_accounts b k (g : fetch_state) (w : world) :
  exists consumed,
    net w = consumed ++ net (pull (backend_next b) k g w).2
    /\ pending g ++ concat (map page_items consumed)
       = values (pull (backend_next b) k g w).1.1
         ++ pending (pull (backend_next b) k g w).1.2
    /\ yielded (trace (pull (backend_next b) k g w).2)
       = yielded (trace w) ++ values (pull (backend_next b) k g w).1.1.
Proof.
  revert g w. induction k as [|k IH]; intros g w.
  - exists []. simpl. rewrite !app_nil_r. repeat split.
  - cbn [pull].
    destruct (backend_next_accounts b g w) as (c1 & Hnet1 & Hp1 & Hy1).
    destruct (backend_next b g w) as [[o g1] w1]. simpl in Hnet1, Hp1, Hy1.
    destruct (IH g1 w1) as (c2 & Hnet2 & Hp2 & Hy2).
    destruct (pull (backend_next b) k g1 w1) as [[os g2] w2].
    simpl in Hnet2, Hp2, Hy2. cbn [fst snd].
    exists (c1 ++ c2). rewrite map_app, concat_app.
    split; [rewrite Hnet1, Hnet2, app_assoc; reflexivity|].
    change (o :: os) with ([o] ++ os). rewrite values_app.
    split.
    + rewrite app_assoc, Hp1, <- !app_assoc, Hp2. reflexivity.
    + rewrite Hy2, Hy1, <- app_assoc. reflexivity.
Qed.

(** X2: whatever the server answers and wherever the consumer stops, the
    questions it received, followed by those of the current page still to
    come, are the questions of the answers taken from the script so far,
    concatenated in order: none is lost, repeated or reordered.  An
    answer with an error status or without the wrapper delivers none. *)
Theorem fetch_hands_over_what_was_delivered b from_date k (w : world) :
  exists consumed,
    net w = consumed ++ net (pull (backend_next b) k (fetch from_date) w).2
    /\ values (pull (backend_next b) k (fetch from_date) w).1.1
       ++ pending (pull (backend_next b) k (fetch from_date) w).1.2
       = concat (map page_items consumed)
    /\ yielded (trace (pull (backend_next b) k (fetch from_date) w).2)
       = yielded (trace w)
         ++ values (pull (backend_next b) k (fetch from_date) w).1.1.
Proof.
  destruct (pull_accounts b k (fetch from_date) w) as (consumed & Hnet & Hp & Hy).
  exists consumed. split; [exact Hnet|]. split; [|exact Hy].
  symmetry. exact Hp.
Qed.

(** *** The pages are asked for one after the other *)

Lemma pages_from_app page m1 m2 :
  pages_from page m1 ++ pages_from (page + Z.of_nat m1) m2
  = pages_from page (m1 + m2).
Proof.
  revert page. induction m1 as [|m1 IH]; intros page.
  - simpl. rewrite Z.add_0_r. reflexivity.
  - cbn [pages_from Nat.add app]. rewrite <- IH.
    replace (page + 1 + Z.of_nat m1)%Z with (page + Z.of_nat (S m1))%Z by lia.
    reflexivity.
Qed.

Lemma page_round_pages c from_date page fetched (w : world) :
  requests (trace (page_round c from_date page fetched w).2)
  = requests (trace w) ++ [payload c page from_date "desc" "activity"]
  /\ net (page_round c from_date page fetched w).2 = drop 1 (net w)
  /\ forall a g', (page_round c from_date page fetched w).1 = Ok (Yielded a g') ->
       exists req fetched', g' = GQ_Suspended from_date page req fetched'.
Proof.
  split; [apply requests_page_round|].
  unfold page_round. destruct (net w) as [|r rs]; simpl.
  { split; [reflexivity|discriminate]. }
  destruct (_ && _); simpl; [split; [reflexivity|discriminate]|].
  destruct (body r) as [j|]; simpl; [|split; [reflexivity|discriminate]].
  split; [reflexivity|]. intros a g' Heq.
  destruct (items j); simplify_eq/=. eauto.
Qed.

Lemma requests_snoc_question (tr : list event) q :
  requests (tr ++ [EvPush q; EvFlush; EvYield q]) = requests tr.
Proof. rewrite requests_app. simpl. apply app_nil_r. Qed.

Lemma client_step_pages c from_date (gq : gq_state) (w : world) :
  client_inv from_date gq ->
  exists m,
    requests (trace (client_step c gq w).2)
    = requests (trace w)
      ++ map (fun p => payload c p from_date "desc" "activity")
           (pages_from (asked (F_Suspended [] gq) + 1) m)
    /\ net (client_step c gq w).2 = drop m (net w)
    /\ forall a g', (client_step c gq w).1 = Ok (Yielded a g') ->
         exists req fetched',
           g' = GQ_Suspended from_date
                  (asked (F_Suspended [] gq) + Z.of_nat m) req fetched'
           /\ (1 <= asked (F_Suspended [] gq) + Z.of_nat m)%Z.
Proof.
  intros Hinv.
  destruct gq as [fd|fd page req fetched|]; simpl in Hinv.
  - subst fd. rewrite client_step_start. exists 1.
    destruct (page_round_pages c from_date 1 0 w) as (Hreq & Hnet & Hstate).
    split; [exact Hreq|]. split; [exact Hnet|].
    intros a g' Heq. destruct (Hstate _ _ Heq) as (req & f' & ->).
    exists req, f'. simpl. split; [reflexivity|lia].
  - destruct Hinv as [-> Hpage]. rewrite client_step_resume.
    destruct (body req) as [j0|].
    + destruct (has_more j0).
      * exists 1.
        destruct (page_round_pages c from_date (page + 1) fetched w)
          as (Hreq & Hnet & Hstate).
        split; [exact Hreq|]. split; [exact Hnet|].
        intros a g' Heq. destruct (Hstate _ _ Heq) as (req' & f' & ->).
        exists req', f'. simpl. split; [reflexivity|lia].
      * exists 0. simpl. rewrite app_nil_r. repeat split. discriminate.
    + exists 0. simpl. rewrite app_nil_r. repeat split. discriminate.
  - exists 0. simpl. rewrite app_nil_r. repeat split. discriminate.
Qed.

Lemma backend_next_pages b from_date (g : fetch_state) (w : world) :
  resumed from_date g ->
  exists m,
    requests (trace (backend_next b g w).2)
    = requests (trace w)
      ++ map (fun p => payload (client b) p from_date "desc" "activity")
           (pages_from (asked g + 1) m)
    /\ net (backend_next b g w).2 = drop m (net w)
    /\ ((backend_next b g w).1.2 = F_Finished
        \/ asked (backend_next b g w).1.2 = (asked g + Z.of_nat m)%Z)
    /\ resumed from_date (backend_next b g w).1.2.
Proof.
  intros Hg.
  destruct g as [fd|[|q qs] gq|]; simpl in Hg.
  - contradiction.
  - rewrite backend_next_page.
    destruct (client_step_pages (client b) from_date gq w Hg)
      as (m & Hreq & Hnet & Hstate).
    exists m.
    destruct (client_step (client b) gq w) as [[[[q qs] g'|]|e] w'];
      cbn [fst snd net trace] in Hreq, Hnet, Hstate |- *.
    + rewrite requests_snoc_question.
      destruct (Hstate _ _ eq_refl) as (req & fetched' & -> & Hpage).
      split; [exact Hreq|]. split; [exact Hnet|].
      split; [right; reflexivity|]. simpl. split; [reflexivity|exact Hpage].
    + split; [exact Hreq|]. split; [exact Hnet|]. split; [left; reflexivity|exact I].
    + split; [exact Hreq|]. split; [exact Hnet|]. split; [left; reflexivity|exact I].
  - rewrite backend_next_question. exists 0. cbn [fst snd net trace].
    rewrite requests_snoc_question. simpl pages_from. simpl map.
    rewrite app_nil_r. split; [reflexivity|]. split; [reflexivity|].
    split; [|exact Hg]. right. destruct gq; simpl; lia.
  - rewrite backend_next_finished. exists 0. simpl. rewrite app_nil_r.
    repeat split. left. reflexivity.
Qed.

Lemma pull_pages b from_date k (g : fetch_state) (w : world) :
  resumed from_date g ->
  exists m,
    requests (trace (pull (backend_next b) k g w).2)
    = requests (trace w)
      ++ map (fun p => payload (client b) p from_date "desc" "activity")
           (pages_from (asked g + 1) m)
    /\ net (pull (backend_next b) k g w).2 = drop m (net w).
Proof.
  revert g w. induction k as [|k IH]; intros g w Hg.
  - exists 0. simpl. rewrite app_nil_r. split; reflexivity.
  - cbn [pull].
    destruct (backend_next_pages b from_date g w Hg)
      as (m1 & Hreq1 & Hnet1 & Hfin & Hg1).
    destruct (backend_next b g w) as [[o g1] w1]. simpl in Hreq1, Hnet1, Hfin, Hg1.
    destruct Hfin as [->|Hasked].
    + rewrite pull_backend_finished. exists m1. split; assumption.
    + destruct (IH g1 w1 Hg1) as (m2 & Hreq2 & Hnet2).
      destruct (pull (backend_next b) k g1 w1) as [[os g2] w2].
      simpl in Hreq2, Hnet2 |- *.
      exists (m1 + m2). rewrite Hreq2, Hreq1, Hnet2, Hnet1, Hasked.
      rewrite <- app_assoc, <- map_app, drop_drop.
      replace (asked g + Z.of_nat m1 + 1)%Z with (asked g + 1 + Z.of_nat m1)%Z by lia.
      rewrite pages_from_app. split; reflexivity.
Qed.

Lemma client_next_pages c from_date (gq : gq_state) (w : world) :
  client_inv from_date gq ->
  exists m,
    requests (trace (client_next c gq w).2)
    = requests (trace w)
      ++ map (fun p => payload c p from_date "desc" "activity")
           (pages_from (asked (F_Suspended [] gq) + 1) m)
    /\ ((client_next c gq w).1.2 = GQ_Finished
        \/ (asked (F_Suspended [] (client_next c gq w).1.2)
            = (asked (F_Suspended [] gq) + Z.of_nat m)%Z
            /\ client_inv from_date (client_next c gq w).1.2)).
Proof.
  intros Hinv.
  destruct (client_step_pages c from_date gq w Hinv) as (m & Hreq & _ & Hstate).
  exists m. unfold next.
  destruct (client_step c gq w) as [[[a g'|]|e] w'];
    cbn [fst snd net trace] in Hreq, Hstate |- *.
  - split; [exact Hreq|]. right.
    destruct (Hstate _ _ eq_refl) as (req & fetched' & -> & Hpage).
    simpl. split; [reflexivity|]. split; [reflexivity|exact Hpage].
  - split; [exact Hreq|]. left. reflexivity.
  - split; [exact Hreq|]. left. reflexivity.
Qed.

Lemma pull_client_pages c from_date k (gq : gq_state) (w : world) :
  client_inv from_date gq ->
  exists m,
    requests (trace (pull (client_next c) k gq w).2)
    = requests (trace w)
      ++ map (fun p => payload c p from_date "desc" "activity")
           (pages_from (asked (F_Suspended [] gq) + 1) m).
Proof.
  revert gq w. induction k as [|k IH]; intros gq w Hg.
  - exists 0. simpl. rewrite app_nil_r. reflexivity.
  - cbn [pull].
    destruct (client_next_pages c from_date gq w Hg) as (m1 & Hreq1 & Hfin).
    destruct (client_next c gq w) as [[o g1] w1]. cbn [fst snd] in Hreq1, Hfin.
    destruct Hfin as [->|[Hasked Hg1]].
    + rewrite pull_client_finished. exists m1. exact Hreq1.
    + destruct (IH g1 w1 Hg1) as (m2 & Hreq2).
      destruct (pull (client_next c) k g1 w1) as [[os g2] w2].
      cbn [fst snd] in Hreq2 |- *.
      exists (m1 + m2). rewrite Hreq2, Hreq1, Hasked.
      rewrite <- app_assoc, <- map_app.
      replace (asked (F_Suspended [] gq) + Z.of_nat m1 + 1)%Z
        with (asked (F_Suspended [] gq) + 1 + Z.of_nat m1)%Z by lia.
      rewrite pages_from_app. reflexivity.
Qed.

(** C9: every request of the paged client carries the page number, the
    configured page size, order desc, sort activity, the tag filter, the
    site, the fixed filter token and the access token; it carries [min],
    equal to the bound converted by [mktime], exactly when the bound is
    set.  The page number carried is the number of the request: the
    [page] parameters of the requests are 1, 2, ..., m, in that order.
    This holds after any number of [next] calls on
    [get_questions(from_date)]. *)
Theorem client_requests_carry_parameters c from_date k (w : world) :
  exists d m,
    trace (pull (client_next c) k (get_questions from_date) w).2 = trace w ++ d
    /\ Forall (request_carries c from_date) (requests d)
    /\ pages_asked (requests d) = map (fun p => Some (PyInt p)) (pages_from 1 m).
Proof.
  destruct (client_pull_shape c from_date k (get_questions from_date) w)
    as (d & Htr & Hd); [reflexivity|].
  destruct (pull_client_pages c from_date k (get_questions from_date) w)
    as (m & Hreq); [reflexivity|].
  exists d, m. split; [exact Htr|].
  split; [apply client_events_carry; exact Hd|].
  rewrite Htr, requests_app in Hreq. apply app_inv_head in Hreq.
  rewrite Hreq. apply pages_asked_payloads.
Qed.

(** X3: whatever the server answers, the requests of a [fetch] are those
    for the pages 1, 2, ..., m, in that order, without gap or repetition,
    all with the bound [fetch] handed to the client: the [page]
    parameters of the requests sent are 1, 2, ..., m; and each request
    took one answer off the script (none when the script had run out). *)
Theorem fetch_asks_for_consecutive_pages b from_date k (w : world) :
  exists m,
    requests (trace (pull (backend_next b) k (fetch from_date) w).2)
    = requests (trace w)
      ++ map (fun p => payload (client b) p (since from_date) "desc" "activity")
           (pages_from 1 m)
    /\ pages_asked (requests (trace (pull (backend_next b) k (fetch from_date) w).2))
       = pages_asked (requests (trace w))
         ++ map (fun p => Some (PyInt p)) (pages_from 1 m)
    /\ net (pull (backend_next b) k (fetch from_date) w).2 = drop m (net w).
Proof.
  assert (H : exists m,
    requests (trace (pull (backend_next b) k (fetch from_date) w).2)
    = requests (trace w)
      ++ map (fun p => payload (client b) p (since from_date) "desc" "activity")
           (pages_from 1 m)
    /\ net (pull (backend_next b) k (fetch from_date) w).2 = drop m (net w)).
  { destruct k as [|k].
    - exists 0. simpl. rewrite app_nil_r. split; reflexivity.
    - rewrite pull_start.
      edestruct (pull_pages b (since from_date) (S k)) as (m & Hreq & Hnet);
        [|exists m; rewrite Hreq, Hnet; simpl; rewrite requests_app; simpl;
          rewrite app_nil_r; split; reflexivity].
      simpl. reflexivity. }
  destruct H as (m & Hreq & Hnet). exists m.
  split; [exact Hreq|]. split; [|exact Hnet].
  rewrite Hreq, pages_asked_app, pages_asked_payloads. reflexivity.
Qed.

(** *** A finished [fetch] stays finished *)




(** *** The progress shown in the log *)

Lemma page_log_bounded (j : wrapper) fetched :
  Forall progress_bounded (page_log j fetched).
Proof.
  unfold page_log, status_log. constructor; [exact I|]. constructor; [|constructor].
  destruct (total j =? 0)%Z; simpl; [exact I|].
  destruct (total j <=? fetched)%Z eqn:Hle; simpl; [lia|].
  apply Z.leb_gt in Hle. lia.
Qed.

Lemma page_round_bounded c from_date page fetched (w : world) :
  exists d,
    trace (page_round c from_date page fetched w).2 = trace w ++ d
    /\ Forall progress_bounded d.
Proof.
  unfold page_round. destruct (net w) as [|r rs]; simpl.
  { eexists. split; [reflexivity|]. repeat constructor. }
  destruct (_ && _); simpl.
  { eexists. split; [reflexivity|]. repeat constructor. }
  destruct (body r) as [j|]; simpl.
  - rewrite <- app_assoc. eexists. split; [reflexivity|].
    apply Forall_app. split; [repeat constructor|apply page_log_bounded].
  - eexists. split; [reflexivity|]. repeat constructor.
Qed.

Lemma backend_next_bounded b (g : fetch_state) (w : world) :
  exists d,
    trace (backend_next b g w).2 = trace w ++ d /\ Forall progress_bounded d.
Proof.
  assert (Hclient : forall (gq : gq_state) (w0 : world),
    exists d, trace (client_step (client b) gq w0).2 = trace w0 ++ d
              /\ Forall progress_bounded d).
  { intros gq w0. destruct gq as [fd|fd page req fetched|].
    - rewrite client_step_start. apply page_round_bounded.
    - rewrite client_step_resume. destruct (body req) as [j0|].
      + destruct (has_more j0); [apply page_round_bounded|].
        exists []. rewrite app_nil_r. split; [reflexivity|constructor].
      + exists []. rewrite app_nil_r. split; [reflexivity|constructor].
    - exists []. rewrite app_nil_r. split; [reflexivity|constructor]. }
  assert (Hpage : forall (gq : gq_state) (w0 : world),
    exists d, trace (backend_next b (F_Suspended [] gq) w0).2 = trace w0 ++ d
              /\ Forall progress_bounded d).
  { intros gq w0. rewrite backend_next_page.
    destruct (Hclient gq w0) as (d & Htr & Hd).
    destruct (client_step (client b) gq w0) as [[[[q qs] g'|]|e] w']; simpl in *.
    - exists (d ++ [EvPush q; EvFlush; EvYield q]). rewrite Htr, <- app_assoc.
      split; [reflexivity|]. apply Forall_app. split; [exact Hd|repeat constructor].
    - exists d. split; assumption.
    - exists d. split; assumption. }
  destruct g as [fd|[|q qs] gq|].
  - rewrite backend_next_start.
    destruct (Hpage (get_questions (since fd))
                (World (net w)
                   (trace w ++ [EvLog (LogLooking (site b) (tagged b) (since fd));
                                EvPurge])))
      as (d & Htr & Hd).
    simpl in Htr. rewrite <- app_assoc in Htr.
    eexists. split; [exact Htr|]. apply Forall_app. split; [repeat constructor|exact Hd].
  - apply Hpage.
  - rewrite backend_next_question. eexists. split; [reflexivity|repeat constructor].
  - rewrite backend_next_finished. exists []. rewrite app_nil_r.
    split; [reflexivity|constructor].
Qed.

(** X1: in every log record of progress a [fetch] writes, whatever the
    server answers, the number shown as fetched is at most the total
    shown: [__log_status] caps the running count, which itself may pass
    the total. *)
Theorem fetch_never_logs_more_than_the_total b from_date k (w : world) :
  exists d,
    trace (pull (backend_next b) k (fetch from_date) w).2 = trace w ++ d
    /\ Forall progress_bounded d.
Proof.
  generalize (fetch (question := question) from_date). intros g.
  revert g w. induction k as [|k IH]; intros g w.
  - exists []. simpl. rewrite app_nil_r. split; [reflexivity|constructor].
  - cbn [pull].
    destruct (backend_next_bounded b g w) as (d1 & Htr1 & Hd1).
    destruct (backend_next b g w) as [[o g1] w1]. simpl in Htr1.
    destruct (IH g1 w1) as (d2 & Htr2 & Hd2).
    destruct (pull (backend_next b) k g1 w1) as [[os g2] w2]. simpl in Htr2 |- *.
    exists (d1 ++ d2). rewrite Htr2, Htr1, <- app_assoc.
    split; [reflexivity|]. apply Forall_app. split; assumption.
Qed.

(** *** The arguments of the constructor reach every request *)

(** X6: every request sent during [fetch], by a backend constructed with
    [site], [tagged], [token] and [max_questions], carries these four as
    [site], [tagged], [key] and [pagesize]; and it always carries [min]:
    the conversion of the bound given, or of [DEFAULT_DATETIME] when none
    was. *)
Theorem fetch_requests_carry_constructor_arguments site0 tagged0 token mq
    (store : option Cache) from_date k (w : world) :
  exists d,
    trace (pull (backend_next (StackExchange_init site0 tagged0 token mq store)) k
             (fetch from_date) w).2 = trace w ++ d
    /\ Forall (fun params : gmap string pyval =>
                 params !! "site" = Some site0
                 /\ params !! "tagged" = Some tagged0
                 /\ params !! "key" = Some token
                 /\ params !! "pagesize" = Some mq
                 /\ params !! "min" =
                    Some (PyInt (mktime (default DEFAULT_DATETIME from_date))))
         (requests d).
Proof.
  destruct k as [|k].
  - exists []. simpl. rewrite app_nil_r. split; [reflexivity|constructor].
  - destruct (pull_fetch_shape (StackExchange_init site0 tagged0 token mq store)
                from_date k w) as (rest & Htr & Hrest & _).
    eexists. split; [exact Htr|]. simpl.
    eapply Forall_impl; [apply fetch_tail_requests; exact Hrest|].
    intros params (_ & Hsize & _ & _ & Htag & Hsite & _ & Hkey & Hmin).
    simpl in *. repeat split; try assumption.
    rewrite Hmin. destruct from_date; reflexivity.
Qed.

(** *** Pages, then a failure *)

(** The pages [js], all with questions and [has_more], go to the consumer
    and leave [fetch] about to ask for the page after them. *)
Lemma walk_good_pages b from_date rest_net :
  forall js rs (g : gq_state) page (tr : list event),
    next_page g = Some (from_date, page) ->
    Forall2 delivers rs js ->
    Forall (fun j => has_more j = true /\ items j <> []) js ->
    exists g' tr',
      pull (backend_next b) (length (concat (map items js)))
        (F_Suspended [] g) (World (rs ++ rest_net) tr)
      = (map Yield (concat (map items js)), F_Suspended [] g',
         World rest_net tr')
      /\ next_page g' = Some (from_date, (page + Z.of_nat (length js))%Z)
      /\ requests tr' =
           requests tr ++
           map (fun p => payload (client b) p from_date "desc" "activity")
             (pages_from page (length js))
      /\ yielded tr' = yielded tr ++ concat (map items js).
Proof.
  induction js as [|j js IH]; intros rs g page tr Hnext Hrs Hjs.
  - apply Forall2_nil_inv_r in Hrs. subst rs. exists g, tr. simpl.
    rewrite Z.add_0_r, !app_nil_r. repeat split. exact Hnext.
  - apply Forall2_cons_inv_r in Hrs. destruct Hrs as (r & rs' & Hr & Hrs' & ->).
    apply Forall_cons in Hjs. destruct Hjs as [[Hjmore Hjitems] Hjs].
    destruct (items j) as [|q qs] eqn:Hq; [contradiction|].
    cbn [map concat app]. rewrite Hq.
    set (rest := concat (map items js)).
    replace (length ((q :: qs) ++ rest)) with (S (length qs) + length rest)
      by (rewrite length_app; simpl; lia).
    rewrite pull_app, (pull_page _ _ _ _ _ _ _ _ _ _ Hnext Hr Hq).
    edestruct (IH rs' (GQ_Suspended from_date page r (fetched_of g + counted j))
                 (page + 1)%Z) as (g' & tr' & Hpull & Hnext' & Hreq & Hy);
      [|exact Hrs'|exact Hjs|].
    { simpl. rewrite (proj2 Hr), Hjmore. reflexivity. }
    fold rest in Hpull, Hy. rewrite Hpull.
    exists g', tr'. split; [rewrite map_app; reflexivity|].
    split; [rewrite Hnext'; f_equal; f_equal; cbn [length]; lia|].
    rewrite Hreq, Hy, requests_page_events, yielded_page_events.
    rewrite <- !app_assoc. split; reflexivity.
Qed.

(** A round of the client that fails: the exception goes to the
    consumer and [fetch] is finished. *)
Lemma pull_failing_round b (g : gq_state) from_date page e
    (bad_net left_net : list response) (tr : list event) k :
  next_page g = Some (from_date, page) ->
  page_round (client b) from_date page (fetched_of g) (World bad_net tr)
  = (Exc e, World left_net (tr ++ [page_request (client b) from_date page])) ->
  pull (backend_next b) (S k) (F_Suspended [] g) (World bad_net tr)
  = (Raise e :: repeat StopIteration k, F_Finished,
     World left_net (tr ++ [page_request (client b) from_date page])).
Proof.
  intros Hnext Hfail. cbn [pull]. rewrite backend_next_page.
  rewrite (client_step_round _ _ _ _ _ Hnext), Hfail.
  rewrite pull_backend_finished. reflexivity.
Qed.

Lemma pull_pages_then_failure b from_date e (bad_net left_net : list response) k
    (rs : list response) (js : list wrapper) (tr : list event) :
  (forall page fetched tr0,
     page_round (client b) (since from_date) page fetched (World bad_net tr0)
     = (Exc e, World left_net
                 (tr0 ++ [page_request (client b) (since from_date) page]))) ->
  Forall2 delivers rs js ->
  Forall (fun j => has_more j = true /\ items j <> []) js ->
  exists tr',
    pull (backend_next b) (length (concat (map items js)) + S k) (fetch from_date)
      (World (rs ++ bad_net) tr)
    = (map Yield (concat (map items js)) ++ Raise e :: repeat StopIteration k,
       F_Finished, World left_net tr')
    /\ requests tr' =
         requests tr ++
         map (fun p => payload (client b) p (since from_date) "desc" "activity")
           (pages_from 1 (S (length js)))
    /\ yielded tr' = yielded tr ++ concat (map items js).
Proof.
  intros Hfail Hrs Hjs.
  rewrite Nat.add_succ_r, pull_start, <- Nat.add_succ_r, pull_app.
  edestruct (walk_good_pages b (since from_date) bad_net js rs
               (get_questions (since from_date)) 1%Z)
    as (g' & tr' & Hpull & Hnext & Hreq & Hy); [reflexivity|exact Hrs|exact Hjs|].
  cbn [net trace]. rewrite Hpull.
  rewrite (pull_failing_round b g' (since from_date) _ e bad_net left_net tr' k Hnext
             (Hfail _ _ _)).
  eexists. split; [reflexivity|].
  replace (S (length js)) with (length js + 1) by lia.
  rewrite <- pages_from_app, map_app.
  rewrite requests_app, yielded_app, Hreq, Hy, requests_app, yielded_app.
  simpl. rewrite !app_nil_r, <- !app_assoc. split; reflexivity.
Qed.

Lemma page_round_key_error c from_date page fetched r rs (tr : list event)
    eid ename emsg :
  ((400 <=? status_code r) && (status_code r <? 600))%Z = false ->
  body r = JError eid ename emsg ->
  page_round c from_date page fetched (World (r :: rs) tr)
  = (Exc (KeyError "items"), World rs (tr ++ [page_request c from_date page])).
Proof.
  intros Hstatus Hbody. unfold page_round. simpl. rewrite Hstatus, Hbody.
  reflexivity.
Qed.

(** X7: when the server answers with pages that all hold questions and
    say [has_more], and then with an error status (400 to 599), the
    consumer receives every question of these pages, in order, before the
    [HTTPError] carrying the failed answer; after it, only
    [StopIteration].  The requests are those for the pages up to the one
    that failed, and the rest of the script is untouched. *)
Theorem fetch_hands_over_pages_before_http_error b from_date r_bad extra k
    (rs : list response) (js : list wrapper) (tr : list event) :
  (400 <= status_code r_bad < 600)%Z ->
  Forall2 delivers rs js ->
  Forall (fun j => has_more j = true /\ items j <> []) js ->
  exists tr',
    pull (backend_next b) (length (concat (map items js)) + S k) (fetch from_date)
      (World (rs ++ r_bad :: extra) tr)
    = (map Yield (concat (map items js))
         ++ Raise (HTTPError r_bad) :: repeat StopIteration k,
       F_Finished, World extra tr')
    /\ requests tr' =
         requests tr ++
         map (fun p => payload (client b) p (since from_date) "desc" "activity")
           (pages_from 1 (S (length js)))
    /\ yielded tr' = yielded tr ++ concat (map items js).
Proof.
  intros Hstatus. apply (pull_pages_then_failure b from_date _ (r_bad :: extra)).
  intros page fetched tr0. apply page_round_error. exact Hstatus.
Qed.

(** X5: an answer whose status passes but whose body is not the wrapper
    (it has no [items]) makes [fetch] raise [KeyError('items')]: the
    questions of the pages before it have all gone to the consumer,
    nothing of this answer has, and nothing is requested afterwards. *)
Theorem answer_without_items_raises_key_error b from_date r_bad extra k
    (rs : list response) (js : list wrapper) (tr : list event) eid ename emsg :
  ((400 <=? status_code r_bad) && (status_code r_bad <? 600))%Z = false ->
  body r_bad = JError eid ename emsg ->
  Forall2 delivers rs js ->
  Forall (fun j => has_more j = true /\ items j <> []) js ->
  exists tr',
    pull (backend_next b) (length (concat (map items js)) + S k) (fetch from_date)
      (World (rs ++ r_bad :: extra) tr)
    = (map Yield (concat (map items js))
         ++ Raise (KeyError "items") :: repeat StopIteration k,
       F_Finished, World extra tr')
    /\ requests tr' =
         requests tr ++
         map (fun p => payload (client b) p (since from_date) "desc" "activity")
           (pages_from 1 (S (length js)))
    /\ yielded tr' = yielded tr ++ concat (map items js).
Proof.
  intros Hstatus Hbody.
  apply (pull_pages_then_failure b from_date _ (r_bad :: extra)).
  intros page fetched tr0. eapply page_round_key_error; eassumption.
Qed.

(** * The command *)

Variable json_dumps : question -> string.
Variable str_exn : exn (question := question) -> string.
Variable str_json : json_body (question := question) -> string.

Local Notation command := (StackExchangeCommand (question := question)).
Local Notation loop_next := (questions_next DEFAULT_DATETIME mktime urljoin).
Local Notation loop := (for_question_in DEFAULT_DATETIME mktime urljoin json_dumps).
Local Notation run_command :=
  (run DEFAULT_DATETIME mktime urljoin json_dumps str_exn str_json).

Lemma dumped_app qs qs' : dumped json_dumps (qs ++ qs') = dumped json_dumps qs ++ dumped json_dumps qs'.
Proof. unfold dumped. rewrite map_app, concat_app. reflexivity. Qed.

Lemma cache_next_start (b : StackExchange) c (w : world) :
  cache b = Some c ->
  cache_next b FC_Start w = cache_next b (FC_Suspended (retrieve c)) w.
Proof.
  intros Hc. unfold fetch_from_cache_next, consumer_next, next,
    fetch_from_cache_step. rewrite Hc. reflexivity.
Qed.

Lemma cache_next_without_cache (b : StackExchange) (w : world) :
  cache b = None ->
  cache_next b FC_Start w
  = (Raise (CacheError "cache instance was not provided"), FC_Finished, w).
Proof.
  intros Hc. unfold fetch_from_cache_next, consumer_next, next,
    fetch_from_cache_step. rewrite Hc. reflexivity.
Qed.

(** One [next] of the loop: the trace gains the question given, if any,
    and the bound decreases with it. *)
Lemma loop_next_accounts (self : command)
    (g : fetch_state + cache_state) (w : world) :
  yielded (trace (loop_next self g w).2)
  = yielded (trace w) ++ values [(loop_next self g w).1.1]
  /\ remaining self g w
     = length (values [(loop_next self g w).1.1])
       + remaining self (loop_next self g w).1.2 (loop_next self g w).2.
Proof.
  destruct g as [f|c]; unfold questions_next.
  - destruct (backend_next_accounts (cmd_backend self) f w)
      as (consumed & Hnet & Hp & Hy).
    destruct (backend_next (cmd_backend self) f w) as [[o f'] w'].
    cbn [fst snd] in *. split; [exact Hy|].
    unfold remaining. rewrite Hnet, map_app, concat_app, length_app.
    apply (f_equal (@length question)) in Hp. rewrite !length_app in Hp. lia.
  - destruct c as [|[|q qs]|].
    + destruct (cache (cmd_backend self)) as [c|] eqn:Hc.
      * rewrite (cache_next_start _ _ _ Hc).
        destruct (retrieve c) as [|q qs] eqn:Hr.
        -- simpl. rewrite Hc, Hr, app_nil_r. split; reflexivity.
        -- rewrite cache_next_item. simpl. rewrite Hc, Hr, yielded_app.
           split; reflexivity.
      * rewrite (cache_next_without_cache _ _ Hc). simpl.
        rewrite Hc, app_nil_r. split; reflexivity.
    + simpl. rewrite app_nil_r. split; reflexivity.
    + rewrite cache_next_item. simpl. rewrite yielded_app. split; reflexivity.
    + simpl. rewrite app_nil_r. split; reflexivity.
Qed.

Lemma loop_terminates (self : command) fuel :
  forall (g : fetch_state + cache_state) (sh : shell),
    remaining self g (sh_world sh) < fuel ->
    exists e sh' qs,
      loop fuel self g sh = Some (e, sh')
      /\ recovered sh' = recovered sh
      /\ yielded (trace (sh_world sh')) = yielded (trace (sh_world sh)) ++ qs
      /\ outfile sh' = outfile sh ++ dumped json_dumps qs.
Proof.
  induction fuel as [|fuel IH]; intros g sh Hfuel; [lia|].
  cbn [for_question_in].
  destruct (loop_next_accounts self g (sh_world sh)) as (Hy & Hrem).
  destruct (loop_next self g (sh_world sh)) as [[o g'] w']. cbn [fst snd] in *.
  destruct o as [q| |e].
  - simpl in Hy, Hrem.
    destruct (IH g' (Shell w' (outfile sh ++ [json_dumps q; newline]) (recovered sh)))
      as (e & sh' & qs & Hloop & Hrec & Hy' & Hout); [simpl; lia|].
    exists e, sh', (q :: qs). split; [exact Hloop|]. split; [exact Hrec|].
    simpl in Hy', Hout. rewrite Hy', Hy, Hout, <- !app_assoc. split; reflexivity.
  - exists None, (Shell w' (outfile sh) (recovered sh)), [].
    simpl in Hy |- *. rewrite app_nil_r in Hy. rewrite !app_nil_r.
    split; [reflexivity|]. split; [reflexivity|]. split; [exact Hy|reflexivity].
  - exists (Some e), (Shell w' (outfile sh) (recovered sh)), [].
    simpl in Hy |- *. rewrite app_nil_r in Hy. rewrite !app_nil_r.
    split; [reflexivity|]. split; [reflexivity|]. split; [exact Hy|reflexivity].
Qed.

(** X8: against any script of answers the loop of [run] comes to an end,
    within one [next] more than the questions the script (or the cache)
    holds; and what it wrote to [outfile] is, for each question the
    generator handed over, in order, its dump followed by a newline:
    this also when the run ends in an exception.  [cache.recover()] is
    called at most once. *)
Theorem run_ends_and_writes_what_was_handed_over (self : command) fuel (sh : shell) :
  rounds self (sh_world sh) < fuel ->
  exists res sh' qs,
    run_command fuel self sh = Some (res, sh')
    /\ yielded (trace (sh_world sh')) = yielded (trace (sh_world sh)) ++ qs
    /\ outfile sh' = outfile sh ++ dumped json_dumps qs
    /\ recovered sh <= recovered sh' <= S (recovered sh).
Proof.
  intros Hfuel. unfold run.
  edestruct (loop_terminates self fuel) as (e & sh' & qs & Hloop & Hrec & Hy & Hout).
  2:{ rewrite Hloop. destruct e as [e|].
      - unfold handle.
        destruct e as [r| |key|cause];
          try destruct (cache (cmd_backend self));
          eexists _, _, qs; (split; [reflexivity|]); simpl;
          (split; [exact Hy|]); (split; [exact Hout|]); lia.
      - eexists _, _, qs. split; [reflexivity|].
        split; [exact Hy|]. split; [exact Hout|]. lia. }
  unfold rounds in Hfuel. unfold remaining.
  destruct (cmd_fetch_cache self); simpl; exact Hfuel.
Qed.

(** The loop of [run], from the outcomes of the [next] calls. *)
Lemma loop_of_pull (self : command) :
  forall qs (g : fetch_state + cache_state) (sh : shell) o g' w' fuel,
    pull (loop_next self) (S (length qs)) g (sh_world sh)
    = (map Yield qs ++ [o], g', w') ->
    (forall q, o <> Yield q) ->
    length qs < fuel ->
    loop fuel self g sh
    = Some (match o with Raise e => Some e | _ => None end,
            Shell w' (outfile sh ++ dumped json_dumps qs) (recovered sh)).
Proof.
  induction qs as [|q qs IH]; intros g sh o g' w' fuel Hpull Ho Hfuel;
    (destruct fuel as [|fuel]; [lia|]); cbn [for_question_in].
  - cbn [pull length map app] in Hpull.
    destruct (loop_next self g (sh_world sh)) as [[o1 g1] w1].
    injection Hpull as -> -> ->.
    destruct o as [q| |e]; [destruct (Ho q eq_refl)| |];
      simpl; rewrite app_nil_r; reflexivity.
  - cbn [length map app] in Hpull.
    change (pull (loop_next self) (S (S (length qs))) g (sh_world sh))
      with (let '(o1, g1, w1) := loop_next self g (sh_world sh) in
            let '(os, g2, w2) := pull (loop_next self) (S (length qs)) g1 w1 in
            (o1 :: os, g2, w2)) in Hpull.
    destruct (loop_next self g (sh_world sh)) as [[o1 g1] w1].
    destruct (pull (loop_next self) (S (length qs)) g1 w1) as [[os g2] w2] eqn:Hrest.
    injection Hpull as -> -> -> ->.
    rewrite (IH g1 (Shell w1 (outfile sh ++ [json_dumps q; newline]) (recovered sh))
               o g' w' fuel Hrest Ho); [|simpl in Hfuel; lia].
    simpl. rewrite <- app_assoc. reflexivity.
Qed.

Lemma pull_loop_fetch (self : command) k (f : fetch_state) (w : world) :
  pull (loop_next self) k (inl f) w
  = ((pull (backend_next (cmd_backend self)) k f w).1.1,
     inl (pull (backend_next (cmd_backend self)) k f w).1.2,
     (pull (backend_next (cmd_backend self)) k f w).2).
Proof.
  revert f w. induction k as [|k IH]; intros f w; [reflexivity|].
  cbn [pull]. unfold questions_next at 1.
  destruct (backend_next (cmd_backend self) f w) as [[o f1] w1].
  rewrite IH.
  destruct (pull (backend_next (cmd_backend self)) k f1 w1) as [[os f2] w2].
  reflexivity.
Qed.

Lemma pull_loop_cache (self : command) k (c : cache_state) (w : world) :
  pull (loop_next self) k (inr c) w
  = ((pull (cache_next (cmd_backend self)) k c w).1.1,
     inr (pull (cache_next (cmd_backend self)) k c w).1.2,
     (pull (cache_next (cmd_backend self)) k c w).2).
Proof.
  revert c w. induction k as [|k IH]; intros c w; [reflexivity|].
  cbn [pull]. unfold questions_next at 1.
  destruct (cache_next (cmd_backend self) c w) as [[o c1] w1].
  rewrite IH.
  destruct (pull (cache_next (cmd_backend self)) k c1 w1) as [[os c2] w2].
  reflexivity.
Qed.

(** [run], from the outcomes of the [next] calls on [fetch]. *)
Lemma run_of_fetch (self : command) fuel (sh : shell) qs o (g' : fetch_state) w' :
  cmd_fetch_cache self = false ->
  pull (backend_next (cmd_backend self)) (S (length qs))
    (fetch (cmd_from_date self)) (sh_world sh)
  = (map Yield qs ++ [o], g', w') ->
  (forall q, o <> Yield q) ->
  length qs < fuel ->
  run_command fuel self sh
  = match o with
    | Raise e =>
        Some (Some (handle str_exn str_json self e
                      (Shell w' (outfile sh ++ dumped json_dumps qs) (recovered sh))).1,
              (handle str_exn str_json self e
                 (Shell w' (outfile sh ++ dumped json_dumps qs) (recovered sh))).2)
    | _ => Some (None, Shell w' (outfile sh ++ dumped json_dumps qs) (recovered sh))
    end.
Proof.
  intros Hfetch Hpull Ho Hfuel. unfold run. rewrite Hfetch.
  rewrite (loop_of_pull self qs (inl (fetch (cmd_from_date self))) sh o (inl g') w'
             fuel); [|rewrite pull_loop_fetch, Hpull; reflexivity|exact Ho|exact Hfuel].
  destruct o as [q| |e]; [destruct (Ho q eq_refl)|reflexivity|].
  destruct (handle _ _ _ _ _) as [err sh'']. reflexivity.
Qed.

Lemma run_of_cache (self : command) fuel (sh : shell) qs o (g' : cache_state) w' :
  cmd_fetch_cache self = true ->
  pull (cache_next (cmd_backend self)) (S (length qs)) fetch_from_cache (sh_world sh)
  = (map Yield qs ++ [o], g', w') ->
  (forall q, o <> Yield q) ->
  length qs < fuel ->
  run_command fuel self sh
  = match o with
    | Raise e =>
        Some (Some (handle str_exn str_json self e
                      (Shell w' (outfile sh ++ dumped json_dumps qs) (recovered sh))).1,
              (handle str_exn str_json self e
                 (Shell w' (outfile sh ++ dumped json_dumps qs) (recovered sh))).2)
    | _ => Some (None, Shell w' (outfile sh ++ dumped json_dumps qs) (recovered sh))
    end.
Proof.
  intros Hfetch Hpull Ho Hfuel. unfold run. rewrite Hfetch.
  rewrite (loop_of_pull self qs (inr fetch_from_cache) sh o (inr g') w'
             fuel); [|rewrite pull_loop_cache, Hpull; reflexivity|exact Ho|exact Hfuel].
  destruct o as [q| |e]; [destruct (Ho q eq_refl)|reflexivity|].
  destruct (handle _ _ _ _ _) as [err sh'']. reflexivity.
Qed.

(** X9: when the server answers with pages that all hold questions, all
    but the last saying [has_more], [run] returns normally, having written
    for every question of these pages, in page order, its dump and a
    newline; [cache.recover()] is not called and the rest of the script
    is untouched. *)
Theorem run_writes_every_page (self : command) fuel
    (rs : list response) (js : list wrapper) r_last j_last extra
    (tr : list event) out rec :
  cmd_fetch_cache self = false ->
  Forall2 delivers rs js ->
  Forall (fun j => has_more j = true /\ items j <> []) js ->
  delivers r_last j_last -> has_more j_last = false -> items j_last <> [] ->
  length (concat (map items (js ++ [j_last]))) < fuel ->
  exists tr',
    run_command fuel self (Shell (World (rs ++ r_last :: extra) tr) out rec)
    = Some (None,
            Shell (World extra tr')
              (out ++ dumped json_dumps (concat (map items (js ++ [j_last])))) rec)
    /\ yielded tr' = yielded tr ++ concat (map items (js ++ [j_last])).
Proof.
  intros Hfetch Hrs Hjs Hlast Hmore Hitems Hfuel.
  destruct (walk_pages (cmd_backend self) (since (cmd_from_date self))
              r_last j_last extra Hlast Hmore Hitems js rs
              (get_questions (since (cmd_from_date self))) 1%Z
              (tr ++ [EvLog (LogLooking (site (cmd_backend self))
                               (tagged (cmd_backend self))
                               (since (cmd_from_date self)));
                      EvPurge])
              eq_refl Hrs Hjs)
    as (tr' & Hpull & _ & Hy).
  exists tr'.
  rewrite (run_of_fetch self fuel _ (concat (map items (js ++ [j_last])))
             StopIteration F_Finished (World extra tr') Hfetch);
    [| |discriminate|exact Hfuel].
  - split; [reflexivity|].
    rewrite yielded_app in Hy. simpl in Hy. rewrite app_nil_r in Hy. exact Hy.
  - cbn [sh_world]. rewrite pull_start. cbn [net trace]. exact Hpull.
Qed.

(** [run] when [fetch] fails after the pages [js]. *)
Lemma run_pages_then_failure (self : command) fuel e
    (bad_net left_net : list response)
    (rs : list response) (js : list wrapper) (tr : list event) out rec :
  cmd_fetch_cache self = false ->
  (forall page fetched tr0,
     page_round (client (cmd_backend self)) (since (cmd_from_date self)) page
       fetched (World bad_net tr0)
     = (Exc e, World left_net
                 (tr0 ++ [page_request (client (cmd_backend self))
                            (since (cmd_from_date self)) page]))) ->
  Forall2 delivers rs js ->
  Forall (fun j => has_more j = true /\ items j <> []) js ->
  length (concat (map items js)) < fuel ->
  exists tr',
    run_command fuel self (Shell (World (rs ++ bad_net) tr) out rec)
    = Some (Some (handle str_exn str_json self e
                    (Shell (World left_net tr')
                       (out ++ dumped json_dumps (concat (map items js))) rec)).1,
            (handle str_exn str_json self e
               (Shell (World left_net tr')
                  (out ++ dumped json_dumps (concat (map items js))) rec)).2)
    /\ yielded tr' = yielded tr ++ concat (map items js).
Proof.
  intros Hfetch Hfail Hrs Hjs Hfuel.
  destruct (pull_pages_then_failure (cmd_backend self) (cmd_from_date self) e
              bad_net left_net 0 rs js tr Hfail Hrs Hjs)
    as (tr' & Hpull & _ & Hy).
  exists tr'. split; [|exact Hy].
  rewrite (run_of_fetch self fuel _ (concat (map items js)) (Raise e)
             F_Finished (World left_net tr') Hfetch);
    [reflexivity| |discriminate|exact Hfuel].
  cbn [sh_world]. rewrite Nat.add_1_r in Hpull. exact Hpull.
Qed.

(** X10: when the server, after pages with questions, answers with an
    error status (400 to 599), [run] has written every question of these
    pages and raises an [HTTPError] whose message is the body of the
    failed answer; [cache.recover()] is not called, with or without a
    cache. *)
Theorem run_raises_http_error_with_the_body (self : command) fuel r_bad extra
    (rs : list response) (js : list wrapper) (tr : list event) out rec :
  cmd_fetch_cache self = false ->
  (400 <= status_code r_bad < 600)%Z ->
  Forall2 delivers rs js ->
  Forall (fun j => has_more j = true /\ items j <> []) js ->
  length (concat (map items js)) < fuel ->
  exists tr',
    run_command fuel self (Shell (World (rs ++ r_bad :: extra) tr) out rec)
    = Some (Some (RaisedHTTPError (str_json (body r_bad))),
            Shell (World extra tr') (out ++ dumped json_dumps (concat (map items js))) rec)
    /\ yielded tr' = yielded tr ++ concat (map items js).
Proof.
  intros Hfetch Hstatus Hrs Hjs Hfuel.
  apply (run_pages_then_failure self fuel (HTTPError r_bad) (r_bad :: extra) extra);
    try assumption.
  intros page fetched tr0. apply page_round_error. exact Hstatus.
Qed.

(** X11: when an answer passes the status check but has no [items],
    [run] has written every question of the pages before it and raises a
    [RuntimeError] with the text of the [KeyError]; [cache.recover()] is
    called, once, exactly when the backend has a cache. *)
Theorem run_recovers_the_cache_on_key_error (self : command) fuel r_bad extra
    (rs : list response) (js : list wrapper) (tr : list event) out rec
    eid ename emsg :
  cmd_fetch_cache self = false ->
  ((400 <=? status_code r_bad) && (status_code r_bad <? 600))%Z = false ->
  body r_bad = JError eid ename emsg ->
  Forall2 delivers rs js ->
  Forall (fun j => has_more j = true /\ items j <> []) js ->
  length (concat (map items js)) < fuel ->
  exists tr',
    run_command fuel self (Shell (World (rs ++ r_bad :: extra) tr) out rec)
    = Some (Some (RuntimeError (str_exn (KeyError "items"))),
            Shell (World extra tr') (out ++ dumped json_dumps (concat (map items js)))
              (match cache (cmd_backend self) with
               | Some _ => S rec
               | None => rec
               end))
    /\ yielded tr' = yielded tr ++ concat (map items js).
Proof.
  intros Hfetch Hstatus Hbody Hrs Hjs Hfuel.
  destruct (run_pages_then_failure self fuel (KeyError "items") (r_bad :: extra)
              extra rs js tr out rec Hfetch) as (tr' & Hrun & Hy);
    try assumption.
  { intros page fetched tr0. eapply page_round_key_error; eassumption. }
  exists tr'. split; [|exact Hy]. rewrite Hrun. unfold handle.
  destruct (cache (cmd_backend self)); reflexivity.
Qed.

(** X14: when the connection fails (the script has run out) after pages
    with questions, [run] has written every question of these pages and
    raises a [RuntimeError] with the text of the connection error;
    [cache.recover()] is not called, with or without a cache. *)
Theorem run_does_not_recover_on_connection_error (self : command) fuel
    (rs : list response) (js : list wrapper) (tr : list event) out rec :
  cmd_fetch_cache self = false ->
  Forall2 delivers rs js ->
  Forall (fun j => has_more j = true /\ items j <> []) js ->
  length (concat (map items js)) < fuel ->
  exists tr',
    run_command fuel self (Shell (World rs tr) out rec)
    = Some (Some (RuntimeError (str_exn ConnectionError)),
            Shell (World [] tr') (out ++ dumped json_dumps (concat (map items js))) rec)
    /\ yielded tr' = yielded tr ++ concat (map items js).
Proof.
  intros Hfetch Hrs Hjs Hfuel.
  destruct (run_pages_then_failure self fuel ConnectionError [] [] rs js tr out rec
              Hfetch) as (tr' & Hrun & Hy); try assumption.
  { intros page fetched tr0. reflexivity. }
  exists tr'. split; [|exact Hy]. rewrite app_nil_r in Hrun. exact Hrun.
Qed.

(** X12: [run] with [fetch_cache] set on a backend without cache raises a
    [RuntimeError] with the text of the [CacheError]; nothing was
    written, nothing requested, and [cache.recover()] is not called. *)
Theorem run_from_cache_without_cache_fails (self : command) fuel (sh : shell) :
  cmd_fetch_cache self = true ->
  cache (cmd_backend self) = None ->
  0 < fuel ->
  run_command fuel self sh
  = Some (Some (RuntimeError
                  (str_exn (CacheError "cache instance was not provided"))),
          sh).
Proof.
  intros Hfetch Hcache Hfuel.
  rewrite (run_of_cache self fuel sh []
             (Raise (CacheError "cache instance was not provided"))
             FC_Finished (sh_world sh) Hfetch);
    [| |discriminate|exact Hfuel].
  - unfold handle. rewrite Hcache. simpl. rewrite app_nil_r.
    destruct sh; reflexivity.
  - cbn [pull length map app]. unfold fetch_from_cache.
    rewrite (cache_next_without_cache _ _ Hcache). reflexivity.
Qed.

(** X13: [run] with [fetch_cache] set on a backend with a cache returns
    normally, having written for every item [retrieve()] produces, in
    order, its dump and a newline; the script of the server is untouched:
    nothing is requested. *)
Theorem run_from_cache_writes_the_cache (self : command) fuel (sh : shell) c :
  cmd_fetch_cache self = true ->
  cache (cmd_backend self) = Some c ->
  length (retrieve c) < fuel ->
  run_command fuel self sh
  = Some (None,
          Shell (World (net (sh_world sh))
                   (trace (sh_world sh) ++ map EvYield (retrieve c)))
            (outfile sh ++ dumped json_dumps (retrieve c)) (recovered sh)).
Proof.
  intros Hfetch Hcache Hfuel.
  rewrite (run_of_cache self fuel sh (retrieve c) StopIteration FC_Finished
             (World (net (sh_world sh))
                (trace (sh_world sh) ++ map EvYield (retrieve c))) Hfetch);
    [reflexivity| |discriminate|exact Hfuel].
  pose proof (pull_cache_items (cmd_backend self) (retrieve c) 0 (sh_world sh))
    as Hpull.
  rewrite Nat.add_1_r in Hpull.
  etransitivity; [|exact Hpull].
  unfold fetch_from_cache. cbn [pull].
  rewrite (cache_next_start _ _ _ Hcache). reflexivity.
Qed.

End Properties.

(** * The claims on the concrete platform *)

(** C1, as the specification has it, fails: with an unset bound, the
    first request of [fetch] carries [min] (the epoch, 0). *)
Lemma unset_since_sends_min :
  ~ Forall (fun params : gmap string pyval => params !! "min" = None)
      (requests (trace (pull demo_next 1 (fetch None) (World three_pages [])).2)).
Proof.
  intros H. apply Forall_inv in H. vm_compute in H. discriminate H.
Qed.

(** C2, as the specification has it, fails: after the three pages of a
    query with five questions, the code has counted 2 + 2 + 2 = 6, where
    counting the remaining total gives 2 + 2 + 1 = 5.  And [has_more]
    alone does not decide: after an answer without questions that says
    [has_more], no second request is sent. *)
Lemma fetched_counts_past_the_total :
  fetched_of (pull demo_client_next 3 (get_questions None)
                (World three_pages [])).1.2
  <> spec_fetched 0 [wrapped [1; 2] true; wrapped [3; 4] true; wrapped [5] false]%Z
  /\ length (requests (trace (pull demo_client_next 2 (get_questions None)
                                (World [answer 200 [] true; answer 200 [5] false]%Z
                                   [])).2)) = 1.
Proof. split; [vm_compute; discriminate|vm_compute; reflexivity]. Qed.

(** C3, as the specification has it, fails: 300 is not a 2xx status, yet
    the answer is taken as a page: its question goes to the consumer and
    the next page is requested. *)
Lemma status_300_is_taken_as_a_page :
  ~ (200 <= 300 < 300)%Z
  /\ (pull demo_next 2 (fetch None)
        (World [answer 300 [1] true; answer 200 [2] false]%Z [])).1.1
     = [Yield 1%Z; Yield 2%Z]
  /\ length (requests (trace (pull demo_next 2 (fetch None)
                                (World [answer 300 [1] true; answer 200 [2] false]%Z
                                   [])).2)) = 2.
Proof. split; [lia|split; vm_compute; reflexivity]. Qed.

Lemma fetched_sums_page_counts_witness :
  Forall2 delivers [answer 200 [1; 2] true; answer 200 [3; 4] true]%Z
    [wrapped [1; 2] true; wrapped [3; 4] true]%Z
  /\ (pull demo_client_next 3 (get_questions None) (World three_pages [])).1.2
     = GQ_Suspended None 3 (answer 200 [5]%Z false) 6.
Proof.
  assert (H : Forall2 delivers [answer 200 [1; 2] true; answer 200 [3; 4] true]%Z
                [wrapped [1; 2] true; wrapped [3; 4] true]%Z)
    by (repeat constructor).
  split; [exact H|].
  refine (proj1 (fetched_sums_page_counts_and_steers_nothing utc_mktime slash_join
            demo_client None _ _ (answer 200 [5]%Z false) (wrapped [5]%Z false)
            [] [] H _ _ _)).
  - repeat constructor; discriminate.
  - split; reflexivity.
  - discriminate.
Defined.

Lemma error_status_witness :
  (400 <= 503 < 600)%Z
  /\ pull demo_next 3 (fetch None)
       (World [answer 503 [] false; answer 200 [5] false]%Z [])
     = ([Raise (HTTPError (answer 503 [] false)); StopIteration; StopIteration],
        F_Finished,
        World [answer 200 [5] false]%Z
          [EvLog (LogLooking (PyStr "stackoverflow") (PyStr "python") (Some epoch));
           EvPurge;
           page_request utc_mktime slash_join demo_client (Some epoch) 1]).
Proof.
  assert (H : (400 <= 503 < 600)%Z) by lia.
  split; [exact H|].
  exact (proj2 (proj2 (error_status_raises_and_stops epoch utc_mktime slash_join
           demo None (GQ_Start None) None 1 (answer 503 [] false)
           [answer 200 [5] false]%Z [] 2 eq_refl H))).
Defined.

Lemma fetch_yields_pages_witness :
  Forall2 delivers [answer 200 [1; 2] true; answer 200 [3; 4] true]%Z
    [wrapped [1; 2] true; wrapped [3; 4] true]%Z
  /\ exists tr',
       pull demo_next 6 (fetch None) (World three_pages [])
       = ([Yield 1; Yield 2; Yield 3; Yield 4; Yield 5; StopIteration]%Z,
          F_Finished, World [] tr')
       /\ requests tr' =
            map (fun p => build_payload utc_mktime demo_client p (Some epoch)
                            "desc" "activity") [1; 2; 3]%Z
       /\ pages_asked (requests tr')
          = [Some (PyInt 1); Some (PyInt 2); Some (PyInt 3)]
       /\ yielded tr' = [1; 2; 3; 4; 5]%Z.
Proof.
  assert (H : Forall2 delivers [answer 200 [1; 2] true; answer 200 [3; 4] true]%Z
                [wrapped [1; 2] true; wrapped [3; 4] true]%Z)
    by (repeat constructor).
  split; [exact H|].
  refine (proj1 (fetch_yields_pages_in_order epoch utc_mktime slash_join demo None
            _ _ (answer 200 [5]%Z false) (wrapped [5]%Z false) [] [] H _ _ _ _)).
  - repeat constructor; discriminate.
  - split; reflexivity.
  - reflexivity.
  - discriminate.
Defined.

Lemma empty_first_page_witness :
  delivers (answer 200 [] false) (wrapped [] false)
  /\ pull demo_next 2 (fetch None) (World [answer 200 [] false] [])
     = ([StopIteration; StopIteration], F_Finished,
        World []
          [EvLog (LogLooking (PyStr "stackoverflow") (PyStr "python") (Some epoch));
           EvPurge;
           page_request utc_mktime slash_join demo_client (Some epoch) 1;
           EvLog (LogRateLimit 9990 10000);
           EvLog (LogFetching 2 5)])
  /\ exists res,
       get_questions_step utc_mktime slash_join demo_client (GQ_Start None)
         (World [Response 200 (JWrapper (Wrapper [7%Z] 2 0 false 9990 10000))] [])
       = (Ok res,
          World []
            [page_request utc_mktime slash_join demo_client None 1;
             EvLog (LogRateLimit 9990 10000);
             EvLog LogNoQuestions]).
Proof.
  assert (H : delivers (answer 200 [] false) (wrapped [] false))
    by (split; reflexivity).
  split; [exact H|]. split.
  - exact (proj1 (empty_first_page_ends_fetch epoch utc_mktime slash_join demo
             None (answer 200 [] false) (wrapped [] false) [] [] 1
             demo_client (GQ_Start None) None 1 H) eq_refl).
  - exact (proj2 (empty_first_page_ends_fetch epoch utc_mktime slash_join demo
             None (Response 200 (JWrapper (Wrapper [7%Z] 2 0 false 9990 10000)))
             (Wrapper [7%Z] 2 0 false 9990 10000) [] [] 1
             demo_client (GQ_Start None) None 1 (conj eq_refl eq_refl))
             eq_refl eq_refl).
Defined.

(** * Further properties on the concrete platform *)

Lemma two_pages_deliver : Forall2 delivers two_pages two_wrappers.
Proof. repeat constructor. Defined.

Lemma two_pages_go_on :
  Forall (fun j : wrapper (question := Z) => has_more j = true /\ items j <> [])
    two_wrappers.
Proof. repeat constructor; discriminate. Defined.


Lemma answer_without_items_witness :
  body no_items = JError 400 "bad_parameter" "site is required"
  /\ exists tr',
       pull demo_next (length (concat (map items two_wrappers)) + 2) (fetch None)
         (World (two_pages ++ no_items :: [answer 200 [5] false]%Z) [])
       = (map Yield (concat (map items two_wrappers))
            ++ Raise (KeyError "items") :: repeat StopIteration 1,
          F_Finished, World [answer 200 [5] false]%Z tr')
       /\ requests tr' =
            map (fun p => build_payload utc_mktime (client demo) p
                            (since epoch None) "desc" "activity")
              (pages_from 1 (S (length two_wrappers)))
       /\ yielded tr' = concat (map items two_wrappers).
Proof.
  split; [reflexivity|].
  exact (answer_without_items_raises_key_error epoch utc_mktime slash_join demo
           None no_items [answer 200 [5] false]%Z 1 two_pages two_wrappers []
           400 "bad_parameter" "site is required" eq_refl eq_refl
           two_pages_deliver two_pages_go_on).
Defined.

Lemma pages_before_http_error_witness :
  (400 <= status_code (answer 503 [] false) < 600)%Z
  /\ exists tr',
       pull demo_next (length (concat (map items two_wrappers)) + 2) (fetch None)
         (World (two_pages ++ answer 503 [] false :: []) [])
       = (map Yield (concat (map items two_wrappers))
            ++ Raise (HTTPError (answer 503 [] false)) :: repeat StopIteration 1,
          F_Finished, World [] tr')
       /\ requests tr' =
            map (fun p => build_payload utc_mktime (client demo) p
                            (since epoch None) "desc" "activity")
              (pages_from 1 (S (length two_wrappers)))
       /\ yielded tr' = concat (map items two_wrappers).
Proof.
  assert (H : (400 <= status_code (answer 503 [] false) < 600)%Z)
    by (simpl; lia).
  split; [exact H|].
  exact (fetch_hands_over_pages_before_http_error epoch utc_mktime slash_join demo
           None (answer 503 [] false) [] 1 two_pages two_wrappers [] H
           two_pages_deliver two_pages_go_on).
Defined.

Lemma run_ends_witness :
  rounds (demo_command false None) (World three_pages []) < 6
  /\ exists res sh' qs,
       demo_run 6 (demo_command false None) (Shell (World three_pages []) [] 0)
       = Some (res, sh')
       /\ yielded (trace (sh_world sh')) = qs
       /\ outfile sh' = dumped demo_dumps qs
       /\ 0 <= recovered sh' <= 1.
Proof.
  assert (H : rounds (demo_command false None) (World three_pages []) < 6)
    by (vm_compute; lia).
  split; [exact H|].
  exact (run_ends_and_writes_what_was_handed_over epoch utc_mktime slash_join
           demo_dumps demo_str_exn demo_str_json (demo_command false None) 6
           (Shell (World three_pages []) [] 0) H).
Defined.

Lemma run_writes_every_page_witness :
  length (concat (map items (two_wrappers ++ [wrapped [5]%Z false]))) < 6
  /\ exists tr',
       demo_run 6 (demo_command false None)
         (Shell (World (two_pages ++ answer 200 [5]%Z false :: []) []) [] 0)
       = Some (None,
               Shell (World [] tr')
                 (dumped demo_dumps
                          (concat (map items (two_wrappers ++ [wrapped [5]%Z false]))))
                 0)
       /\ yielded tr' =
            concat (map items (two_wrappers ++ [wrapped [5]%Z false])).
Proof.
  assert (H : length (concat (map items (two_wrappers ++ [wrapped [5]%Z false]))) < 6)
    by (simpl; lia).
  split; [exact H|].
  refine (run_writes_every_page epoch utc_mktime slash_join demo_dumps demo_str_exn
            demo_str_json (demo_command false None) 6 two_pages two_wrappers
            (answer 200 [5]%Z false) (wrapped [5]%Z false) [] [] [] 0 eq_refl
            two_pages_deliver two_pages_go_on _ eq_refl _ H).
  - split; reflexivity.
  - discriminate.
Defined.

Lemma run_raises_http_error_witness :
  (400 <= status_code (answer 503 [] false) < 600)%Z
  /\ exists tr',
       demo_run 5 (demo_command false (Some (MkCache [])))
         (Shell (World (two_pages ++ answer 503 [] false :: []) []) [] 0)
       = Some (Some (RaisedHTTPError (demo_str_json (body (answer 503 [] false)))),
               Shell (World [] tr')
                 (dumped demo_dumps (concat (map items two_wrappers))) 0)
       /\ yielded tr' = concat (map items two_wrappers).
Proof.
  assert (H : (400 <= status_code (answer 503 [] false) < 600)%Z)
    by (simpl; lia).
  split; [exact H|].
  refine (run_raises_http_error_with_the_body epoch utc_mktime slash_join demo_dumps
            demo_str_exn demo_str_json (demo_command false (Some (MkCache []))) 5
            (answer 503 [] false) [] two_pages two_wrappers [] [] 0 eq_refl H
            two_pages_deliver two_pages_go_on _).
  simpl. lia.
Defined.

Lemma run_recovers_the_cache_witness :
  length (concat (map items two_wrappers)) < 5
  /\ exists tr',
       demo_run 5 (demo_command false (Some (MkCache [])))
         (Shell (World (two_pages ++ no_items :: []) []) [] 0)
       = Some (Some (RuntimeError (demo_str_exn (KeyError "items"))),
               Shell (World [] tr')
                 (dumped demo_dumps (concat (map items two_wrappers))) 1)
       /\ yielded tr' = concat (map items two_wrappers).
Proof.
  assert (H : length (concat (map items two_wrappers)) < 5) by (simpl; lia).
  split; [exact H|].
  exact (run_recovers_the_cache_on_key_error epoch utc_mktime slash_join demo_dumps
           demo_str_exn demo_str_json (demo_command false (Some (MkCache []))) 5
           no_items [] two_pages two_wrappers [] [] 0
           400 "bad_parameter" "site is required" eq_refl eq_refl eq_refl
           two_pages_deliver two_pages_go_on H).
Defined.

Lemma run_connection_error_witness :
  length (concat (map items two_wrappers)) < 5
  /\ exists tr',
       demo_run 5 (demo_command false (Some (MkCache [])))
         (Shell (World two_pages []) [] 0)
       = Some (Some (RuntimeError (demo_str_exn ConnectionError)),
               Shell (World [] tr')
                 (dumped demo_dumps (concat (map items two_wrappers))) 0)
       /\ yielded tr' = concat (map items two_wrappers).
Proof.
  assert (H : length (concat (map items two_wrappers)) < 5) by (simpl; lia).
  split; [exact H|].
  exact (run_does_not_recover_on_connection_error epoch utc_mktime slash_join
           demo_dumps demo_str_exn demo_str_json
           (demo_command false (Some (MkCache []))) 5
           two_pages two_wrappers [] [] 0 eq_refl
           two_pages_deliver two_pages_go_on H).
Defined.

Lemma run_from_cache_without_cache_witness :
  0 < 1
  /\ demo_run 1 (demo_command true None) (Shell (World three_pages []) [] 0)
     = Some (Some (RuntimeError "cache instance was not provided"),
             Shell (World three_pages []) [] 0).
Proof.
  assert (H : 0 < 1) by lia.
  split; [exact H|].
  exact (run_from_cache_without_cache_fails epoch utc_mktime slash_join demo_dumps
           demo_str_exn demo_str_json (demo_command true None) 1
           (Shell (World three_pages []) [] 0) eq_refl eq_refl H).
Defined.

Lemma run_from_cache_writes_witness :
  length (retrieve (MkCache [7; 8]%Z)) < 3
  /\ demo_run 3 (demo_command true (Some (MkCache [7; 8]%Z)))
       (Shell (World three_pages []) [] 0)
     = Some (None,
             Shell (World three_pages [EvYield 7%Z; EvYield 8%Z])
               [demo_dumps 7; newline; demo_dumps 8; newline] 0).
Proof.
  assert (H : length (retrieve (MkCache [7; 8]%Z)) < 3) by (simpl; lia).
  split; [exact H|].
  exact (run_from_cache_writes_the_cache epoch utc_mktime slash_join demo_dumps
           demo_str_exn demo_str_json (demo_command true (Some (MkCache [7; 8]%Z)))
           3 (Shell (World three_pages []) [] 0) (MkCache [7; 8]%Z)
           eq_refl eq_refl H).
Defined.

(** * The git-blame parser *)

Module GitBlameProperties.
Import GitBlame.

(** *** Splitting *)

Lemma split_token sep a rest :
  free_of sep a = true ->
  split sep (a +:+ String sep rest) = a :: split sep rest.
Proof.
  induction a as [|x a IH]; simpl; intros Hfree.
  - rewrite Ascii.eqb_refl. reflexivity.
  - apply andb_prop in Hfree. destruct Hfree as [Hx Ha].
    apply negb_true_iff in Hx. rewrite Hx, (IH Ha). reflexivity.
Qed.

Lemma split_last sep a : free_of sep a = true -> split sep a = [a].
Proof.
  induction a as [|x a IH]; simpl; intros Hfree; [reflexivity|].
  apply andb_prop in Hfree. destruct Hfree as [Hx Ha].
  apply negb_true_iff in Hx. rewrite Hx, (IH Ha). reflexivity.
Qed.

Lemma split_once_key sep k v :
  free_of sep k = true -> split_once sep (k +:+ String sep v) = Some (k, v).
Proof.
  induction k as [|x k IH]; simpl; intros Hfree.
  - rewrite Ascii.eqb_refl. reflexivity.
  - apply andb_prop in Hfree. destruct Hfree as [Hx Hk].
    apply negb_true_iff in Hx. rewrite Hx, (IH Hk). reflexivity.
Qed.

Lemma free_of_append c a b :
  free_of c (a +:+ b) = free_of c a && free_of c b.
Proof.
  induction a as [|x a IH]; simpl; [reflexivity|].
  rewrite IH, andb_assoc. reflexivity.
Qed.

Lemma splitlines_line l text :
  free_of LF l = true ->
  splitlines (l +:+ String LF text) = l :: splitlines text.
Proof.
  induction l as [|x l IH]; simpl; intros Hfree; [reflexivity|].
  apply andb_prop in Hfree. destruct Hfree as [Hx Hl].
  apply negb_true_iff in Hx. rewrite Hx, (IH Hl). reflexivity.
Qed.

Lemma splitlines_unlines ls :
  Forall (fun l => free_of LF l = true) ls -> splitlines (unlines ls) = ls.
Proof.
  induction 1 as [|l ls Hl _ IH]; simpl; [reflexivity|].
  rewrite (splitlines_line _ _ Hl), IH. reflexivity.
Qed.

(** *** The parser on well-formed groups *)

Lemma analyze_group_body metadata seen suppress snippet0 path rest :
  Forall well_formed_line metadata ->
  analyze_lines seen (InGroup suppress snippet0)
    (map kv_line metadata ++ ("filename " +:+ path) :: rest)
  = add_snippet
      (<["filename" := path]>
         (if suppress then snippet0 else with_metadata snippet0 metadata))
      (analyze_lines seen AtHeader rest).
Proof.
  intros Hwf. revert snippet0.
  induction Hwf as [|[k v] metadata (Hk & Hne & _) _ IH]; intros snippet0.
  - destruct suppress; reflexivity.
  - simpl in Hk, Hne. cbn [map app analyze_lines].
    change (kv_line (k, v)) with (k +:+ String " " v).
    rewrite (split_once_key _ _ _ Hk).
    apply String.eqb_neq in Hne. simpl in Hne. rewrite Hne.
    destruct suppress; rewrite IH; reflexivity.
Qed.

Lemma analyze_groups gs seen :
  Forall well_formed gs ->
  analyze_lines seen AtHeader (blame_lines gs) = Snippets (records seen gs).
Proof.
  intros Hwf. revert seen.
  induction Hwf as [|g gs (Htokens & Hmeta & _) _ IH]; intros seen;
    [reflexivity|].
  unfold blame_lines. cbn [map concat]. fold (blame_lines gs).
  unfold group_lines at 1. cbn [app analyze_lines].
  apply Forall_cons in Htokens. destruct Htokens as [[Hh _] Htokens].
  apply Forall_cons in Htokens. destruct Htokens as [[Hp _] Htokens].
  apply Forall_cons in Htokens. destruct Htokens as [[Ht _] Htokens].
  apply Forall_cons in Htokens. destruct Htokens as [[Hn _] _].
  unfold header_line.
  change (g_hash g +:+ " " +:+ g_prev_line g +:+ " " +:+ g_this_line g
            +:+ " " +:+ g_count g)
    with (g_hash g +:+ String " " (g_prev_line g +:+ String " "
            (g_this_line g +:+ String " " (g_count g)))).
  rewrite (split_token _ _ _ Hh), (split_token _ _ _ Hp), (split_token _ _ _ Ht).
  rewrite (split_last _ _ Hn).
  rewrite <- app_assoc. cbn [app].
  rewrite (analyze_group_body _ _ _ _ _ _ Hmeta), IH. reflexivity.
Qed.

Lemma blame_lines_free gs :
  Forall well_formed gs ->
  Forall (fun l => free_of LF l = true) (blame_lines gs).
Proof.
  induction 1 as [|g gs (Htokens & Hmeta & Hpath) _ IH]; [constructor|].
  unfold blame_lines. cbn [map concat]. fold (blame_lines gs).
  apply Forall_app. split; [|exact IH].
  unfold group_lines. constructor.
  - apply Forall_cons in Htokens. destruct Htokens as [[_ Hh] Htokens].
    apply Forall_cons in Htokens. destruct Htokens as [[_ Hp] Htokens].
    apply Forall_cons in Htokens. destruct Htokens as [[_ Ht] Htokens].
    apply Forall_cons in Htokens. destruct Htokens as [[_ Hn] _].
    unfold header_line. rewrite !free_of_append, Hh, Hp, Ht, Hn. reflexivity.
  - apply Forall_app. split.
    + apply Forall_map. eapply Forall_impl; [exact Hmeta|].
      intros [k v] (_ & _ & Hk & Hv). unfold kv_line. simpl in *.
      rewrite !free_of_append, Hk, Hv. reflexivity.
    + constructor; [|constructor].
      rewrite free_of_append, Hpath. reflexivity.
Qed.

Lemma records_length seen gs : length (records seen gs) = length gs.
Proof.
  revert seen. induction gs as [|g gs IH]; intros seen; simpl;
    [reflexivity|rewrite IH; reflexivity].
Qed.

Lemma records_lookup gs seen i g :
  gs !! i = Some g ->
  exists r,
    records seen gs !! i = Some r
    /\ (identity g ∈ seen \/ identity g ∈ identity <$> take i gs ->
        r = record_of true g)
    /\ (~ (identity g ∈ seen \/ identity g ∈ identity <$> take i gs) ->
        r = record_of false g).
Proof.
  revert seen i. induction gs as [|a gs IH]; intros seen i Hg; [discriminate|].
  destruct i as [|i]; simpl in Hg.
  - injection Hg as ->. eexists. split; [reflexivity|]. simpl.
    split; intros Hseen.
    + rewrite bool_decide_eq_true_2; [reflexivity|].
      destruct Hseen as [?|Hnil]; [assumption|]. inversion Hnil.
    + rewrite bool_decide_eq_false_2; [reflexivity|]. tauto.
  - destruct (IH ({[identity a]} ∪ seen) i Hg) as (r & Hr & Hseen & Hnew).
    exists r. split; [exact Hr|]. simpl.
    rewrite elem_of_cons. rewrite elem_of_union, elem_of_singleton in Hseen, Hnew.
    split; intros H; [apply Hseen|apply Hnew]; tauto.
Qed.

Lemma dom_record_of_suppressed g : dom (record_of true g) = five_fields.
Proof.
  unfold record_of, header_snippet, five_fields.
  rewrite !dom_insert_L, dom_empty_L. set_solver.
Qed.

(** [TestBlameOutput.test_analyze] *)(** [TestBlameOutput.test_analyze] *)
Example test_analyze :
  analyze text_single = Snippets analyzed_single
  /\ analyze text = Snippets analyzed.
Proof. split; vm_compute; reflexivity. Qed.

(** [TestGitBlameBackend.test_initialization] *)
Example test_initialization :
  origin (GitBlame_init "http://example.com" "/tmp/gittest" (Some "test")) = "test"
  /\ origin (GitBlame_init "http://example.com" "/tmp/gittest" None)
     = "http://example.com"
  /\ origin (GitBlame_init "http://example.com" "/tmp/gittest" (Some ""))
     = "http://example.com".
Proof. repeat split. Qed.

(** C8 (as the test data has it): for every well-formed blame output,
    [analyze] gives one record per group, in the order of the groups.
    The record of a group whose identity (hash, prevLine, thisLine) was
    met earlier in the same call has exactly the fields hash, prev_line,
    this_line, lines and filename.  The record of a first occurrence has
    these fields and the metadata its own group lists in the input: all
    of it when the input lists it, none when the input abbreviates the
    group. *)
Theorem analyze_emits_groups_in_order gs :
  Forall well_formed gs ->
  exists rs,
    analyze (unlines (blame_lines gs)) = Snippets rs
    /\ length rs = length gs
    /\ forall i g, gs !! i = Some g ->
         exists r,
           rs !! i = Some r
           /\ (identity g ∈ identity <$> take i gs ->
               r = record_of true g /\ dom r = five_fields)
           /\ (identity g ∉ identity <$> take i gs ->
               r = record_of false g).
Proof.
  intros Hwf. exists (records ∅ gs). unfold analyze.
  rewrite (splitlines_unlines _ (blame_lines_free _ Hwf)).
  split; [apply analyze_groups; exact Hwf|].
  split; [apply records_length|].
  intros i g Hg.
  destruct (records_lookup gs ∅ i g Hg) as (r & Hr & Hseen & Hnew).
  exists r. split; [exact Hr|]. split.
  - intros Hin. rewrite (Hseen (or_intror Hin)).
    split; [reflexivity|apply dom_record_of_suppressed].
  - intros Hout. apply Hnew. intros [Hin|Hin]; [set_solver|contradiction].
Qed.

(** C10: a backend constructed with no origin, or with the empty string
    as origin, has the URI of the repository as its origin; constructed
    with a non-empty origin, it keeps that origin.  URI and path are
    stored as given. *)
Theorem origin_defaults_to_uri uri0 gitpath0 c o :
  origin (GitBlame_init uri0 gitpath0 None) = uri0
  /\ origin (GitBlame_init uri0 gitpath0 (Some EmptyString)) = uri0
  /\ origin (GitBlame_init uri0 gitpath0 (Some (String c o))) = String c o
  /\ forall given,
       uri (GitBlame_init uri0 gitpath0 given) = uri0
       /\ gitpath (GitBlame_init uri0 gitpath0 given) = gitpath0.
Proof. repeat split. Qed.

(** C8, as the specification has it, fails on the data of the test
    suite: the second group of its input, [d7d3... 174 174 6], has an
    identity met nowhere before, and its record carries no metadata. *)
Lemma new_identity_without_metadata :
  exists rs, analyze text = Snippets rs /\ ~ abbreviated_by_identity rs.
Proof.
  exists analyzed. split; [exact (proj2 test_analyze)|].
  intros H. specialize (H 1 _ eq_refl).
  destruct (bool_decide _) eqn:Hnew in H.
  - vm_compute in Hnew. discriminate Hnew.
  - apply Forall_inv in H. destruct H as [author Hauthor].
    vm_compute in Hauthor. discriminate Hauthor.
Qed.

Lemma analyze_emits_groups_witness :
  Forall well_formed
    [block "29" [("author", "Santiago"); ("summary", "Add Redmine backend")];
     block "29" [("author", "Santiago")];
     block "174" []]
  /\ exists rs,
       analyze (unlines (blame_lines
         [block "29" [("author", "Santiago"); ("summary", "Add Redmine backend")];
          block "29" [("author", "Santiago")];
          block "174" []])) = Snippets rs
       /\ length rs = 3
       /\ exists r, rs !! 1 = Some r /\ dom r = five_fields.
Proof.
  assert (H : Forall well_formed
    [block "29" [("author", "Santiago"); ("summary", "Add Redmine backend")];
     block "29" [("author", "Santiago")];
     block "174" []])
    by (repeat (constructor || (intros ?; discriminate))).
  split; [exact H|].
  destruct (analyze_emits_groups_in_order _ H) as (rs & Hrs & Hlen & Hgroups).
  exists rs. split; [exact Hrs|]. split; [exact Hlen|].
  destruct (Hgroups 1 _ eq_refl) as (r & Hr & Hseen & _).
  exists r. split; [exact Hr|]. apply Hseen. constructor.
Defined.

End GitBlameProperties.
